(** * An e-learning GraphQL backend (server.js): model and properties

    The server keeps two MongoDB collections (users and courses) behind
    Mongoose models, authenticates requests with a JSON Web Token carried in
    the Authorization header, and exposes seven root resolvers.  This file
    embeds the middleware [isAuth] and the seven resolvers of [root] as
    functions on an explicit database state, and proves properties of them.

    Two libraries the server calls are outside the repository: the BSON
    ObjectId (through Mongoose) and jsonwebtoken.  They are interfaces here
    ([Bson], [JsonWebToken]); a concrete implementation of each is given
    further down and used to run the resolvers on concrete data. *)

From Stdlib Require Import String Ascii List Bool NArith Arith Lia.
From Stdlib Require Hexadecimal HexadecimalString HexadecimalN HexadecimalPos Eqdep_dec.
Import ListNotations.
Open Scope string_scope.

(** ** JavaScript completions *)

Inductive Nullish : Type := js_null | js_undefined.

(** What a resolver can throw.  [TypeError b p] is the engine's "Cannot read
    properties of b (reading 'p')". *)
Inductive Exn : Type :=
| Error (message : string)
| TypeError (base : Nullish) (property : string)
| CastError (value : string)
| JsonWebTokenError (message : string)
| TokenExpiredError.

Inductive Completion (A : Type) : Type :=
| Return (a : A)
| Throw (e : Exn).
Arguments Return {A} a.
Arguments Throw {A} e.

(** ** External libraries *)

(** BSON ObjectId as Mongoose uses it: [toString] is the hexadecimal
    rendering, [castObjectId] is the schema cast applied to a string given
    where an ObjectId is expected ([None] is a CastError). *)
Class Bson : Type := {
  ObjectId : Type;
  equals : ObjectId -> ObjectId -> bool;
  equals_spec : forall a b, equals a b = true <-> a = b;
  toString : ObjectId -> string;
  castObjectId : string -> option ObjectId;
  cast_toString : forall x, castObjectId (toString x) = Some x
}.

(** jsonwebtoken: [jwt_sign userId secret expiresIn clock] is
    [jwt.sign({ userId }, secret, { expiresIn })] at time [clock] (seconds);
    [jwt_verify token secret clock] returns the decoded [userId] or throws. *)
Class JsonWebToken : Type := {
  jwt_sign : string -> string -> N -> N -> string;
  jwt_verify : string -> string -> N -> Completion string;
  verify_sign : forall uid secret expiresIn iat clock,
    (clock < iat + expiresIn)%N ->
    jwt_verify (jwt_sign uid secret expiresIn iat) secret clock = Return uid;
  sign_nonempty : forall uid secret expiresIn iat,
    jwt_sign uid secret expiresIn iat <> "";
  sign_no_space : forall uid secret expiresIn iat,
    existsb (Ascii.eqb " ") (list_ascii_of_string (jwt_sign uid secret expiresIn iat)) = false
}.

(** ** Generic helpers: arrays and strings *)

(** [String.prototype.split] with a one-character separator. *)
Fixpoint split (sep : ascii) (s : string) : list string :=
  match s with
  | EmptyString => [EmptyString]
  | String c s' =>
      if Ascii.eqb c sep then EmptyString :: split sep s'
      else match split sep s' with
           | [] => [String c EmptyString]
           | w :: ws => String c w :: ws
           end
  end.

(** Truthiness of a possibly absent string. *)
Definition truthy_string (s : option string) : bool :=
  match s with
  | Some EmptyString | None => false
  | Some _ => true
  end.

(** Truthiness of a possibly absent boolean. *)
Definition truthy_bool (b : option bool) : bool :=
  match b with
  | Some true => true
  | _ => false
  end.

(** [includes] of a Mongoose array of strings. *)
Definition includes (l : list string) (x : string) : bool :=
  existsb (String.eqb x) l.

(** Replace, in place, the first element satisfying [f] by its image under [g]. *)
Fixpoint update_first {A : Type} (f : A -> bool) (g : A -> A) (l : list A) : list A :=
  match l with
  | [] => []
  | x :: l' => if f x then g x :: l' else x :: update_first f g l'
  end.

(** A string without a space character. *)
Definition no_space (s : string) : bool :=
  negb (existsb (Ascii.eqb " ") (list_ascii_of_string s)).

(** One day, in seconds: the ['1d'] of [login]. *)
Definition one_day : N := 86400.

(** ** Reference implementations of the two libraries

    Small implementations of the interfaces above, used to run the server on
    concrete data.  An ObjectId is a 96-bit number, rendered as 24 lower-case
    hexadecimal digits and read back from 24 hexadecimal digits in either
    case.  Tokens are transparent: a token spells out the key it was signed
    with, its expiry and its payload. *)

Module Reference.

Record Oid : Type := {
  oid_value : N;
  oid_ok : (oid_value <? 2 ^ 96)%N = true
}.

Definition oid_equals (a b : Oid) : bool := N.eqb (oid_value a) (oid_value b).

Definition digit (d : N) : ascii :=
  nth (N.to_nat d) (list_ascii_of_string "0123456789abcdef") "0"%char.

(** The position of [c] in [alphabet], counted from [i]. *)
Fixpoint index_of (c : ascii) (alphabet : list ascii) (i : N) : option N :=
  match alphabet with
  | [] => None
  | x :: rest => if Ascii.eqb c x then Some i else index_of c rest (N.succ i)
  end.

(** The value of a hexadecimal digit, lower or upper case. *)
Definition digit_value (c : ascii) : option N :=
  match index_of c (list_ascii_of_string "0123456789abcdef") 0 with
  | Some d => Some d
  | None => index_of c (list_ascii_of_string "ABCDEF") 10
  end.

(** The last [k] hexadecimal digits of [n], most significant first, in front
    of [rest]. *)
Fixpoint render (k : nat) (n : N) (rest : string) : string :=
  match k with
  | O => rest
  | S k' => render k' (n / 16)%N (String (digit (n mod 16)%N) rest)
  end.

(** The number a string of hexadecimal digits denotes, continuing [acc]. *)
Fixpoint parse (s : string) (acc : N) : option N :=
  match s with
  | EmptyString => Some acc
  | String c s' =>
      match digit_value c with
      | Some d => parse s' (16 * acc + d)%N
      | None => None
      end
  end.

Definition oid_toString (x : Oid) : string := render 24 (oid_value x) "".

Definition in_range (v : N)
    : {(v <? 2 ^ 96)%N = true} + {(v <? 2 ^ 96)%N = false} :=
  (if (v <? 2 ^ 96)%N as b return ({b = true} + {b = false})
   then left eq_refl else right eq_refl).

Definition oid_cast (s : string) : option Oid :=
  if Nat.eqb (String.length s) 24 then
    match parse s 0 with
    | Some v =>
        match in_range v with
        | left H => Some {| oid_value := v; oid_ok := H |}
        | right _ => None
        end
    | None => None
    end
  else None.

(** Numbers inside a token: hexadecimal, no padding. *)
Definition number_toString (n : N) : string :=
  HexadecimalString.NilEmpty.string_of_uint (N.to_hex_uint n).

Definition number_cast (s : string) : option N :=
  match s with
  | EmptyString => None
  | _ => option_map N.of_hex_uint (HexadecimalString.NilEmpty.uint_of_string s)
  end.

Definition bit (b : bool) : ascii := if b then "1"%char else "0"%char.

Definition unbit (c : ascii) : option bool :=
  if Ascii.eqb c "1" then Some true
  else if Ascii.eqb c "0" then Some false
  else None.

(** Eight characters, ['0'] or ['1'], per character. *)
Fixpoint encode (s : string) : string :=
  match s with
  | EmptyString => EmptyString
  | String (Ascii b0 b1 b2 b3 b4 b5 b6 b7) s' =>
      String (bit b0) (String (bit b1) (String (bit b2) (String (bit b3)
        (String (bit b4) (String (bit b5) (String (bit b6) (String (bit b7)
          (encode s'))))))))
  end.

Definition bits_ascii (c0 c1 c2 c3 c4 c5 c6 c7 : ascii) : option ascii :=
  match unbit c0, unbit c1, unbit c2, unbit c3, unbit c4, unbit c5, unbit c6, unbit c7 with
  | Some b0, Some b1, Some b2, Some b3, Some b4, Some b5, Some b6, Some b7 =>
      Some (Ascii b0 b1 b2 b3 b4 b5 b6 b7)
  | _, _, _, _, _, _, _, _ => None
  end.

Fixpoint decode (s : string) : option string :=
  match s with
  | EmptyString => Some EmptyString
  | String c0 (String c1 (String c2 (String c3
      (String c4 (String c5 (String c6 (String c7 rest))))))) =>
      match bits_ascii c0 c1 c2 c3 c4 c5 c6 c7, decode rest with
      | Some a, Some r => Some (String a r)
      | _, _ => None
      end
  | _ => None
  end.

Definition sign (uid secret : string) (expiresIn iat : N) : string :=
  "jwt" ++ String "." (encode secret ++ String "." (number_toString (iat + expiresIn)
            ++ String "." (encode uid))).

Definition malformed : Exn := JsonWebTokenError "jwt malformed".

Definition verify (tok secret : string) (clock : N) : Completion string :=
  match split "." tok with
  | [hd; s; e; u] =>
      if negb (String.eqb hd "jwt") then Throw malformed else
      match decode s, number_cast e, decode u with
      | Some key, Some exp, Some uid =>
          if negb (String.eqb key secret) then Throw (JsonWebTokenError "invalid signature")
          else if (exp <=? clock)%N then Throw TokenExpiredError
          else Return uid
      | _, _, _ => Throw malformed
      end
  | _ => Throw malformed
  end.

End Reference.

Section Server.

Context {bson : Bson} {jwt : JsonWebToken}.

(** ** MongoDB models (userSchema, courseSchema) *)

Record Progress : Type := {
  course : ObjectId;
  completedLessons : list string
}.

Record User : Type := {
  user_id : ObjectId;
  name : string;
  email : string;
  password : string;
  enrolledCourses : list ObjectId;
  progress : list Progress
}.

Record Quiz : Type := {
  question : string;
  options : list string;
  answer : string
}.

Record Course : Type := {
  course_id : ObjectId;
  title : string;
  description : string;
  category : option string;
  lessons : list string;
  quizzes : list Quiz;
  enrolledStudents : list ObjectId
}.

(** The two collections, each in natural (insertion) order. *)
Record DB : Type := {
  users : list User;
  catalog : list Course
}.

(** What the process reads from outside: the signing secret, the clock, and
    the ObjectId that [new User] draws. *)
Record Env : Type := {
  JWT_SECRET : string;
  now : N;
  newObjectId : ObjectId
}.

(** The part of the Express request the server reads and writes. *)
Record Req : Type := {
  authorization : option string;
  req_isAuth : option bool;
  req_userId : option string
}.

(** A request as it arrives: [isAuth] and [userId] are not yet defined. *)
Definition incoming (header : option string) : Req :=
  {| authorization := header; req_isAuth := None; req_userId := None |}.

(** ** Asynchronous resolvers: state plus exceptions *)

Definition Async (A : Type) : Type := DB -> Completion A * DB.

Definition ret {A : Type} (a : A) : Async A := fun db => (Return a, db).

Definition throw {A : Type} (e : Exn) : Async A := fun db => (Throw e, db).

Definition bind {A B : Type} (m : Async A) (k : A -> Async B) : Async B :=
  fun db =>
    match m db with
    | (Return a, db') => k a db'
    | (Throw e, db') => (Throw e, db')
    end.

Notation "x <- m ;; k" := (bind m (fun x => k))
  (at level 61, m at next level, right associativity).

(** Lift a synchronous computation that may throw. *)
Definition lift {A : Type} (c : Completion A) : Async A := fun db => (c, db).

(** ** Mongoose operations the resolvers use *)

(** Schema cast of a string to ObjectId. *)
Definition cast (value : string) : Completion ObjectId :=
  match castObjectId value with
  | Some oid => Return oid
  | None => Throw (CastError value)
  end.

(** [Model.findById(id)] on a collection whose documents carry [key]; an
    undefined [id] is the query [{ _id: null }], which matches nothing. *)
Definition findById {D : Type} (key : D -> ObjectId) (docs : list D)
    (id : option string) : Completion (option D) :=
  match id with
  | None => Return None
  | Some s =>
      match cast s with
      | Return oid => Return (find (fun d => equals (key d) oid) docs)
      | Throw e => Throw e
      end
  end.

Definition User_findById (id : option string) : Async (option User) :=
  fun db => (findById user_id (users db) id, db).

Definition Course_findById (id : option string) : Async (option Course) :=
  fun db => (findById course_id (catalog db) id, db).

(** [User.findOne({ email })]. *)
Definition User_findOne_email (e : string) : Async (option User) :=
  fun db => (Return (find (fun u => String.eqb (email u) e) (users db)), db).

(** [Course.find()] and [Course.find({ category })]. *)
Definition Course_find (filter : option string) : Async (list Course) :=
  fun db =>
    match filter with
    | None => (Return (catalog db), db)
    | Some cat =>
        (Return (List.filter
                   (fun c => match category c with
                             | Some k => String.eqb k cat
                             | None => false
                             end) (catalog db)), db)
    end.

(** [doc.save()] of a document loaded from the collection: the stored
    document with the same [_id] is overwritten. *)
Definition User_save (u : User) : Async User :=
  fun db =>
    (Return u,
     {| users := update_first (fun v => equals (user_id v) (user_id u))
                   (fun _ => u) (users db);
        catalog := catalog db |}).

Definition Course_save (c : Course) : Async Course :=
  fun db =>
    (Return c,
     {| users := users db;
        catalog := update_first (fun d => equals (course_id d) (course_id c))
                     (fun _ => c) (catalog db) |}).

(** [doc.save()] of a document made with [new User]: it is inserted. *)
Definition User_insert (u : User) : Async User :=
  fun db => (Return u, {| users := users db ++ [u]; catalog := catalog db |}).

(** [includes] of a Mongoose array of ObjectIds with a string argument: the
    array compares [obj == this[i]], which renders each ObjectId with
    [toString] and compares strings. *)
Definition includes_id (l : list ObjectId) (x : string) : bool :=
  existsb (fun o => String.eqb x (toString o)) l.

(** [populate('enrolledCourses')]: each id is replaced by its course;
    ids without a course are dropped. *)
Definition populate_courses (ids : list ObjectId) (cs : list Course) : list Course :=
  flat_map (fun oid => match find (fun c => equals (course_id c) oid) cs with
                       | Some c => [c]
                       | None => []
                       end) ids.

(** A progress entry after [populate('progress.course')]: [course] holds
    the course document, or null when there is none. *)
Record PopulatedProgress : Type := {
  pp_course : option Course;
  pp_completedLessons : list string
}.

Definition populate_progress (cs : list Course) (p : Progress) : PopulatedProgress :=
  {| pp_course := find (fun c => equals (course_id c) (course p)) cs;
     pp_completedLessons := completedLessons p |}.

(** [Array.prototype.find] with a callback that may throw. *)
Fixpoint find_throwing {A : Type} (f : A -> Completion bool) (l : list A)
    : Completion (option A) :=
  match l with
  | [] => Return None
  | x :: l' =>
      match f x with
      | Return true => Return (Some x)
      | Return false => find_throwing f l'
      | Throw e => Throw e
      end
  end.

(** ** JWT middleware *)

(** What a middleware can do with a request: hand it on with [next()], or
    answer it itself and stop the chain. *)
Inductive Gate : Type :=
| Next (req : Req)
| Respond (status : N).

Definition isAuth (env : Env) (req : Req) : Completion Gate :=
  let authHeader := if truthy_string (authorization req)
                    then match authorization req with Some h => h | None => "" end
                    else "" in
  let token := nth_error (split " " authHeader) 1 in
  if negb (truthy_string token) then Return (Next req)
  else
    let tok := match token with Some t => t | None => "" end in
    let req' :=
      match jwt_verify tok (JWT_SECRET env) (now env) with
      | Return decoded =>
          {| authorization := authorization req;
             req_isAuth := Some true;
             req_userId := Some decoded |}
      | Throw err =>
          {| authorization := authorization req;
             req_isAuth := Some false;
             req_userId := req_userId req |}
      end in
    Return (Next req').

(** ** Resolvers ([root]) *)

Definition Unauthorized : Exn := Error "Unauthorized".

Definition courses (cat : option string) (req : Req) : Async (list Course) :=
  if truthy_string cat then Course_find cat else Course_find None.

Definition myCourses (req : Req) : Async (list Course) :=
  if negb (truthy_bool (req_isAuth req)) then throw Unauthorized else
  user <- User_findById (req_userId req) ;;
  match user with
  | None => throw (TypeError js_null "enrolledCourses")
  | Some u => fun db => (Return (populate_courses (enrolledCourses u) (catalog db)), db)
  end.

Definition myProgress (courseId : string) (req : Req) : Async (option PopulatedProgress) :=
  if negb (truthy_bool (req_isAuth req)) then throw Unauthorized else
  user <- User_findById (req_userId req) ;;
  match user with
  | None => throw (TypeError js_null "progress")
  | Some u =>
      fun db =>
        (find_throwing
           (fun p => match pp_course p with
                     | None => Throw (TypeError js_null "_id")
                     | Some c => Return (String.eqb (toString (course_id c)) courseId)
                     end)
           (map (populate_progress (catalog db)) (progress u)), db)
  end.

Definition register (env : Env) (nm em pw : string) (req : Req) : Async User :=
  existingUser <- User_findOne_email em ;;
  match existingUser with
  | Some _ => throw (Error "Email already registered")
  | None =>
      User_insert {| user_id := newObjectId env; name := nm; email := em;
                     password := pw; enrolledCourses := []; progress := [] |}
  end.

Record AuthData : Type := {
  token : string;
  userId : ObjectId
}.

Definition login (env : Env) (em pw : string) (req : Req) : Async AuthData :=
  user <- User_findOne_email em ;;
  match user with
  | None => throw (Error "Invalid credentials")
  | Some u =>
      if negb (String.eqb (password u) pw) then throw (Error "Invalid credentials")
      else
        ret {| token := jwt_sign (toString (user_id u)) (JWT_SECRET env) one_day (now env);
               userId := user_id u |}
  end.

Definition enroll (courseId : string) (req : Req) : Async (option Course) :=
  if negb (truthy_bool (req_isAuth req)) then throw Unauthorized else
  user <- User_findById (req_userId req) ;;
  crs <- Course_findById (Some courseId) ;;
  match user with
  | None => throw (TypeError js_null "enrolledCourses")
  | Some u =>
      if negb (includes_id (enrolledCourses u) courseId) then
        oid <- lift (cast courseId) ;;
        match crs with
        | None => throw (TypeError js_null "enrolledStudents")
        | Some c =>
            let u' := {| user_id := user_id u; name := name u; email := email u;
                         password := password u;
                         enrolledCourses := enrolledCourses u ++ [oid];
                         progress := progress u
                                       ++ [{| course := oid; completedLessons := [] |}] |} in
            let c' := {| course_id := course_id c; title := title c;
                         description := description c; category := category c;
                         lessons := lessons c; quizzes := quizzes c;
                         enrolledStudents := enrolledStudents c ++ [user_id u] |} in
            _ <- User_save u' ;;
            _ <- Course_save c' ;;
            ret (Some c')
        end
      else ret crs
  end.

(** The body of the [if] in [completeLesson], on the located entry. *)
Definition add_lesson (lesson : string) (p : Progress) : Progress :=
  if negb (includes (completedLessons p) lesson)
  then {| course := course p; completedLessons := completedLessons p ++ [lesson] |}
  else p.

Definition completeLesson (courseId lesson : string) (req : Req) : Async Progress :=
  if negb (truthy_bool (req_isAuth req)) then throw Unauthorized else
  user <- User_findById (req_userId req) ;;
  match user with
  | None => throw (TypeError js_null "progress")
  | Some u =>
      let matches := fun p => String.eqb (toString (course p)) courseId in
      match find matches (progress u) with
      | None => throw (TypeError js_undefined "completedLessons")
      | Some p =>
          let u' := {| user_id := user_id u; name := name u; email := email u;
                       password := password u;
                       enrolledCourses := enrolledCourses u;
                       progress := update_first matches (add_lesson lesson) (progress u) |} in
          _ <- User_save u' ;;
          ret (add_lesson lesson p)
      end
  end.

(** ** The endpoint: one operation per request *)

Inductive Op : Type :=
| Courses (cat : option string)
| MyCourses
| MyProgress (courseId : string)
| Register (nm em pw : string)
| Login (em pw : string)
| Enroll (courseId : string)
| CompleteLesson (courseId lesson : string).

Inductive Value : Type :=
| CourseList (l : list Course)
| PopulatedProgressValue (p : option PopulatedProgress)
| UserValue (u : User)
| AuthDataValue (a : AuthData)
| CourseValue (c : option Course)
| ProgressValue (p : Progress).

Definition fmap {A B : Type} (f : A -> B) (m : Async A) : Async B :=
  x <- m ;; ret (f x).

(** The resolver of [root] that serves an operation. *)
Definition resolve (env : Env) (op : Op) (req : Req) : Async Value :=
  match op with
  | Courses cat => fmap CourseList (courses cat req)
  | MyCourses => fmap CourseList (myCourses req)
  | MyProgress courseId => fmap PopulatedProgressValue (myProgress courseId req)
  | Register nm em pw => fmap UserValue (register env nm em pw req)
  | Login em pw => fmap AuthDataValue (login env em pw req)
  | Enroll courseId => fmap CourseValue (enroll courseId req)
  | CompleteLesson courseId lesson => fmap ProgressValue (completeLesson courseId lesson req)
  end.

(** [app.use(isAuth)] followed by [app.use('/graphql', ...)]. *)
Definition serve (env : Env) (header : option string) (op : Op) : Async Value :=
  match isAuth env (incoming header) with
  | Return (Next req) => resolve env op req
  | Return (Respond _) => throw (Error "no resolver ran")
  | Throw e => throw e
  end.

(** The token a header presents to [isAuth]: its second space-separated
    word, when there is one and it is not empty. *)
Definition presented_token (header : option string) : option string :=
  match header with
  | None => None
  | Some h =>
      match split " " h with
      | _ :: String a t :: _ => Some (String a t)
      | _ => None
      end
  end.

(** A sequence of [completeLesson] calls made with the same request context. *)
Fixpoint completeLessons (calls : list (string * string)) (req : Req) (db : DB) : DB :=
  match calls with
  | [] => db
  | (courseId, lesson) :: rest =>
      completeLessons rest req (snd (completeLesson courseId lesson req db))
  end.

(** ** State predicates *)

Definition count {A : Type} (f : A -> bool) (l : list A) : nat :=
  length (filter f l).



(** The entry of [u] that [completeLesson] and [myProgress] work on for
    [courseId]. *)
Definition progress_for (u : User) (courseId : string) : option Progress :=
  find (fun p => String.eqb (toString (course p)) courseId) (progress u).

(** How many Progress records [u] holds for [courseId]. *)
Definition progress_count (u : User) (courseId : string) : nat :=
  count (fun p => String.eqb (toString (course p)) courseId) (progress u).

(** How many times [courseId] is in the enrolled list of [u]. *)
Definition enrolled_count (u : User) (courseId : string) : nat :=
  count (fun o => String.eqb courseId (toString o)) (enrolledCourses u).

(** How many times the user [uid] is in the student list of [c]. *)
Definition student_count (c : Course) (uid : ObjectId) : nat :=
  count (fun o => equals o uid) (enrolledStudents c).

(** Every enrolled course id of every user is the [_id] of a stored course. *)
Definition enrolled_courses_exist (db : DB) : bool :=
  forallb (fun u =>
             forallb (fun oid => existsb (fun c => equals (course_id c) oid) (catalog db))
                     (enrolledCourses u))
          (users db).

(** No two stored users share an email (the [unique] index of the schema). *)
Fixpoint unique_emails (l : list User) : bool :=
  match l with
  | [] => true
  | u :: l' => negb (existsb (fun v => String.eqb (email v) (email u)) l') && unique_emails l'
  end.

(** No Progress record of any stored user lists a lesson twice. *)
Definition lessons_unique (db : DB) : Prop :=
  forall u, In u (users db) ->
  forall p, In p (progress u) -> NoDup (completedLessons p).

(** [l'] extends [l]: position by position the same lessons, possibly followed
    by more. *)
Definition lessons_grow (l l' : list string) : Prop :=
  exists added, l' = (l ++ added)%list.

(** A Progress record after some operation: same course, lessons only added. *)
Definition progress_grows (p p' : Progress) : Prop :=
  course p' = course p /\ lessons_grow (completedLessons p) (completedLessons p').

(** Position by position [l'] continues [l] under [R], possibly with more
    elements at the end. *)
Inductive extends {A : Type} (R : A -> A -> Prop) : list A -> list A -> Prop :=
| extends_nil : forall l', extends R [] l'
| extends_cons : forall x x' l l', R x x' -> extends R l l' -> extends R (x :: l) (x' :: l').

(** A user after some operation: same identity, no Progress record lost or
    shrunk. *)
Definition user_grows (u u' : User) : Prop :=
  user_id u' = user_id u /\ extends progress_grows (progress u) (progress u').

Definition course_kept (c c' : Course) : Prop :=
  course_id c' = course_id c.

(** A database after some operation: no user, course or Progress record
    removed, completed lessons only added. *)
Definition db_grows (db db' : DB) : Prop :=
  extends user_grows (users db) (users db') /\
  extends course_kept (catalog db) (catalog db').

(** The user document of [completeLesson] once its progress array has been
    updated in place. *)
Definition set_progress (u : User) (ps : list Progress) : User :=
  {| user_id := user_id u; name := name u; email := email u; password := password u;
     enrolledCourses := enrolledCourses u; progress := ps |}.

(** The lessons a sequence of calls asks to complete for [courseId], in call
    order. *)
Definition requested (courseId : string) (calls : list (string * string)) : list string :=
  map snd (filter (fun call => String.eqb (fst call) courseId) calls).

(** A list with every repetition after the first occurrence removed. *)
Definition first_occurrences (l : list string) : list string :=
  rev (nodup string_dec (rev l)).

(** The lessons among [l] that are not in [seen]. *)
Definition unseen (seen l : list string) : list string :=
  filter (fun x => negb (includes seen x)) l.

(** The user and course documents of [enroll] after its three pushes. *)
Definition enrolled_user (u : User) (oid : ObjectId) : User :=
  {| user_id := user_id u; name := name u; email := email u; password := password u;
     enrolledCourses := enrolledCourses u ++ [oid];
     progress := progress u ++ [{| course := oid; completedLessons := [] |}] |}.

Definition enrolled_course (c : Course) (uid : ObjectId) : Course :=
  {| course_id := course_id c; title := title c; description := description c;
     category := category c; lessons := lessons c; quizzes := quizzes c;
     enrolledStudents := enrolledStudents c ++ [uid] |}.

(** For a user, a course and the course's id as the client spells it: the
    number of Progress records, of entries in the user's enrolled list, and
    of entries for the user in the course's student list. *)
Definition membership (u : User) (c : Course) (courseId : string) : nat * nat * nat :=
  (progress_count u courseId, enrolled_count u courseId, student_count c (user_id u)).

(** A sequence of requests, each already through the gate, served one after
    the other; the values returned are dropped. *)
Fixpoint resolve_all (requests : list (Env * Op * Req)) (db : DB) : DB :=
  match requests with
  | [] => db
  | (env, op, req) :: rest => resolve_all rest (snd (resolve env op req db))
  end.

(** The append-if-absent step of [completeLesson] on a lesson list. *)
Definition append_if_absent (acc : list string) (lesson : string) : list string :=
  if includes acc lesson then acc else (acc ++ [lesson])%list.

(** Every stored user holds one Progress record per entry of the enrolled
    list, for the same course ids in the same order. *)
Definition progress_mirrors_enrolled (db : DB) : Prop :=
  forall u, In u (users db) -> map course (progress u) = enrolledCourses u.

(** What a course is apart from its students, and a user apart from the
    enrollment data. *)
Definition course_content (c : Course)
    : ObjectId * string * string * option string * list string * list Quiz :=
  (course_id c, title c, description c, category c, lessons c, quizzes c).

Definition credentials (u : User) : ObjectId * string * string * string :=
  (user_id u, name u, email u, password u).

(** [l'] is [l] followed by more elements. *)
Definition prefix {A : Type} (l l' : list A) : Prop :=
  exists more, l' = (l ++ more)%list.

(** A user after some operation: same credentials, enrolled list only
    appended to. *)
Definition enrollment_grows (u u' : User) : Prop :=
  credentials u' = credentials u /\ prefix (enrolledCourses u) (enrolledCourses u').

(** A course after some operation: student list only appended to. *)
Definition students_grow (c c' : Course) : Prop :=
  prefix (enrolledStudents c) (enrolledStudents c').

(** No two stored users and no two stored courses share an [_id]. *)
Definition unique_ids (db : DB) : Prop :=
  NoDup (map user_id (users db)) /\ NoDup (map course_id (catalog db)).

(** The two views of enrollment agree: a course is in a user's enrolled list
    as often as the user is in the course's student list. *)
Definition views_agree (db : DB) : Prop :=
  forall u c, In u (users db) -> In c (catalog db) ->
    count (fun o => equals o (course_id c)) (enrolledCourses u)
    = count (fun o => equals o (user_id u)) (enrolledStudents c).

(** The ObjectId drawn for a new user occurs nowhere in the database as a
    user id. *)
Definition fresh_id (env : Env) (db : DB) : Prop :=
  (forall u, In u (users db) -> user_id u <> newObjectId env) /\
  (forall c, In c (catalog db) -> ~ In (newObjectId env) (enrolledStudents c)).

(** Every registration in a sequence of requests draws a fresh id. *)
Fixpoint fresh_draws (requests : list (Env * Op * Req)) (db : DB) : Prop :=
  match requests with
  | [] => True
  | (env, op, req) :: rest =>
      (forall nm em pw, op = Register nm em pw -> fresh_id env db) /\
      fresh_draws rest (snd (resolve env op req db))
  end.

(** The operations whose resolver starts with the [req.isAuth] test. *)
Definition gated (op : Op) : bool :=
  match op with
  | MyCourses | MyProgress _ | Enroll _ | CompleteLesson _ _ => true
  | Courses _ | Register _ _ _ | Login _ _ => false
  end.

(** ** Properties *)

(** *** Strings and arrays *)

Lemma split_no_sep (sep : ascii) (s : string) :
  existsb (Ascii.eqb sep) (list_ascii_of_string s) = false -> split sep s = [s].
Proof.
  induction s as [|c s IH]; simpl; intros H; [reflexivity|].
  apply orb_false_iff in H. destruct H as [Hc Hs].
  rewrite Ascii.eqb_sym, Hc. rewrite (IH Hs). reflexivity.
Qed.

Lemma split_word (sep : ascii) (w rest : string) :
  existsb (Ascii.eqb sep) (list_ascii_of_string w) = false ->
  split sep (w ++ String sep rest) = w :: split sep rest.
Proof.
  induction w as [|c w IH]; simpl; intros H.
  - rewrite Ascii.eqb_refl. reflexivity.
  - apply orb_false_iff in H. destruct H as [Hc Hw].
    rewrite Ascii.eqb_sym, Hc. rewrite (IH Hw). reflexivity.
Qed.

Lemma presented_token_bearer (tok : string) :
  tok <> "" -> no_space tok = true ->
  presented_token (Some ("Bearer " ++ tok)) = Some tok.
Proof.
  intros Hne Hsp. unfold presented_token.
  change ("Bearer " ++ tok) with ("Bearer" ++ String " " tok).
  rewrite split_word by reflexivity.
  unfold no_space in Hsp. apply negb_true_iff in Hsp.
  rewrite (split_no_sep _ _ Hsp).
  destruct tok; [contradiction|reflexivity].
Qed.

Lemma includes_In (l : list string) (x : string) :
  includes l x = true <-> In x l.
Proof.
  unfold includes. rewrite existsb_exists. split.
  - intros [y [Hy E]]. apply String.eqb_eq in E. subst. exact Hy.
  - intros H. exists x. split; [exact H|apply String.eqb_refl].
Qed.

Lemma find_update_first_same {A : Type} (f : A -> bool) (g : A -> A) (l : list A) :
  (forall x, f x = true -> f (g x) = true) ->
  find f (update_first f g l) = option_map g (find f l).
Proof.
  intros Hg. induction l as [|x l IH]; simpl; [reflexivity|].
  destruct (f x) eqn:E; simpl.
  - rewrite (Hg x E). reflexivity.
  - rewrite E. exact IH.
Qed.

Lemma find_update_first_other {A : Type} (f h : A -> bool) (g : A -> A) (l : list A) :
  (forall x, h x = true -> f x = false /\ f (g x) = false) ->
  find f (update_first h g l) = find f l.
Proof.
  intros Hg. induction l as [|x l IH]; simpl; [reflexivity|].
  destruct (h x) eqn:E; simpl.
  - destruct (Hg x E) as [E1 E2]. rewrite E1, E2. reflexivity.
  - rewrite IH. reflexivity.
Qed.




Lemma equals_refl (o : ObjectId) : equals o o = true.
Proof. apply equals_spec. reflexivity. Qed.

Lemma equals_eq (a b : ObjectId) : equals a b = true -> a = b.
Proof. apply equals_spec. Qed.


(** *** findById and save *)

Lemma findById_found {D : Type} (key : D -> ObjectId) (docs : list D) (id : option string) (d : D) :
  findById key docs id = Return (Some d) ->
  exists s, id = Some s /\ castObjectId s = Some (key d) /\
            find (fun x => equals (key x) (key d)) docs = Some d.
Proof.
  unfold findById, cast. destruct id as [s|]; [|discriminate].
  destruct (castObjectId s) as [oid|] eqn:Ec; [|discriminate].
  intros H. injection H as H. exists s.
  destruct (find_some _ _ H) as [_ Hk]. apply equals_eq in Hk. subst oid.
  auto.
Qed.

(** *** The catalog query *)

(** C8 (amended): [courses] never looks at the request context; without a
    filter, and also with the empty string as filter, it returns every stored
    course, and with a non-empty filter exactly the stored courses whose
    category equals the filter, in stored order. *)
Theorem courses_filter_nonempty (cat : option string) (req : Req) (db : DB) :
  exists result,
    courses cat req db = (Return result, db) /\
    (cat = None -> result = catalog db) /\
    (cat = Some "" -> result = catalog db) /\
    (forall k, cat = Some k -> k <> "" ->
       result = filter (fun c => match category c with
                                 | Some k' => String.eqb k' k
                                 | None => false
                                 end) (catalog db) /\
       forall c, In c result <-> In c (catalog db) /\ category c = Some k).
Proof.
  destruct cat as [[|a k]|]; simpl; eexists; (split; [reflexivity|]);
    (split; [|split]); try discriminate; try reflexivity.
  - intros k E Hk. injection E as <-. contradiction.
  - intros k0 E _. injection E as <-. split; [reflexivity|].
    intros c. rewrite filter_In. split; intros [Hin Hc]; (split; [exact Hin|]).
    + destruct (category c) as [k'|]; [|discriminate].
      apply String.eqb_eq in Hc. congruence.
    + rewrite Hc. apply String.eqb_refl.
Qed.

(** *** Registration and login *)

Lemma find_email_In (us : list User) (u : User) :
  In u us -> exists v, find (fun x => String.eqb (email x) (email u)) us = Some v.
Proof.
  intros H. destruct (find _ us) as [v|] eqn:E; [eauto|].
  exfalso. pose proof (find_none _ _ E u H) as F. simpl in F.
  rewrite String.eqb_refl in F. discriminate.
Qed.

Lemma find_email_unique (us : list User) (u : User) :
  unique_emails us = true -> In u us ->
  find (fun x => String.eqb (email x) (email u)) us = Some u.
Proof.
  induction us as [|v us IH]; simpl; intros Hu Hin; [contradiction|].
  apply andb_true_iff in Hu. destruct Hu as [Hv Hus].
  destruct Hin as [->|Hin].
  - rewrite String.eqb_refl. reflexivity.
  - destruct (String.eqb (email v) (email u)) eqn:E; [|auto].
    exfalso. apply negb_true_iff in Hv.
    assert (X : existsb (fun x => String.eqb (email x) (email v)) us = true).
    { apply existsb_exists. exists u. split; [exact Hin|].
      rewrite String.eqb_sym. exact E. }
    congruence.
Qed.

(** C5: [register] with an email some stored user already has throws
    "Email already registered" and leaves the whole database, hence that
    user's record and the number of users, as it was. *)
Theorem register_duplicate_email (env : Env) (nm em pw : string) (req : Req) (db : DB) (u : User) :
  In u (users db) -> email u = em ->
  register env nm em pw req db = (Throw (Error "Email already registered"), db).
Proof.
  intros Hin <-. unfold register, bind, User_findOne_email.
  destruct (find_email_In _ _ Hin) as [v ->]. reflexivity.
Qed.

Lemma unique_emails_app (us : list User) (u : User) :
  unique_emails us = true ->
  find (fun x => String.eqb (email x) (email u)) us = None ->
  unique_emails (us ++ [u]) = true.
Proof.
  induction us as [|v us IH]; simpl; intros Hu Hf; [reflexivity|].
  apply andb_true_iff in Hu. destruct Hu as [Hv Hus].
  destruct (String.eqb (email v) (email u)) eqn:E; [discriminate|].
  rewrite (IH Hus Hf), andb_true_r, existsb_app. simpl.
  apply negb_true_iff in Hv. rewrite Hv. simpl.
  rewrite String.eqb_sym, E. reflexivity.
Qed.

(** Registration keeps emails unique. *)
Lemma register_keeps_unique_emails (env : Env) (nm em pw : string) (req : Req) (db : DB) :
  unique_emails (users db) = true ->
  unique_emails (users (snd (register env nm em pw req db))) = true.
Proof.
  intros Hu. unfold register, bind, User_findOne_email.
  destruct (find _ (users db)) as [v|] eqn:E; simpl; [exact Hu|].
  apply unique_emails_app; [exact Hu|exact E].
Qed.

(** *** The request gate *)

Lemma isAuth_presented (env : Env) (req : Req) :
  isAuth env req =
  Return (Next
    match presented_token (authorization req) with
    | None => req
    | Some tok =>
        match jwt_verify tok (JWT_SECRET env) (now env) with
        | Return decoded =>
            {| authorization := authorization req; req_isAuth := Some true;
               req_userId := Some decoded |}
        | Throw _ =>
            {| authorization := authorization req; req_isAuth := Some false;
               req_userId := req_userId req |}
        end
    end).
Proof.
  unfold isAuth, presented_token.
  destruct (authorization req) as [[|a h]|]; try reflexivity.
  cbn [truthy_string].
  destruct (split " " (String a h)) as [|w0 [|[|b t] ws]]; reflexivity.
Qed.

(** C6: whatever the Authorization header, [isAuth] throws nothing and hands
    the request to the resolvers.  Without a token the context is not
    authenticated; with a token that [jwt.verify] rejects the context is
    not authenticated, carries no user id, and is the same for every
    rejection reason; with a token that verifies the context is
    authenticated and carries the decoded user id. *)
Theorem isAuth_never_blocks (env : Env) (header : option string) :
  exists req',
    isAuth env (incoming header) = Return (Next req') /\
    (forall op db, serve env header op db = resolve env op req' db) /\
    (presented_token header = None ->
       truthy_bool (req_isAuth req') = false /\ req_userId req' = None) /\
    (forall tok e,
       presented_token header = Some tok ->
       jwt_verify tok (JWT_SECRET env) (now env) = Throw e ->
       req' = {| authorization := header; req_isAuth := Some false; req_userId := None |}) /\
    (forall tok uid,
       presented_token header = Some tok ->
       jwt_verify tok (JWT_SECRET env) (now env) = Return uid ->
       req' = {| authorization := header; req_isAuth := Some true; req_userId := Some uid |}).
Proof.
  eexists. split; [apply isAuth_presented|].
  split; [intros op db; unfold serve; rewrite isAuth_presented; reflexivity|].
  simpl. repeat split.
  - rewrite H. reflexivity.
  - rewrite H. reflexivity.
  - intros tok e -> ->. reflexivity.
  - intros tok uid -> ->. reflexivity.
Qed.

(** C4: with unique emails, [login] with a stored user's email and password
    returns a token and that user's id; until one day has passed,
    [jwt.verify] returns from that token the rendering of the user's id, the
    gate turns that token into an authenticated context carrying it, and
    looking it up casts back to the same id.  With an email no user has, or
    a password that differs from the stored one, [login] throws "Invalid
    credentials" and returns no token. *)
Theorem login_token_verifies (env : Env) (em pw : string) (req : Req) (db : DB) :
  unique_emails (users db) = true ->
  (forall u, In u (users db) -> email u = em -> password u = pw ->
     exists tok,
       login env em pw req db = (Return {| token := tok; userId := user_id u |}, db) /\
       forall clock, (clock < now env + one_day)%N ->
         jwt_verify tok (JWT_SECRET env) clock = Return (toString (user_id u)) /\
         isAuth {| JWT_SECRET := JWT_SECRET env; now := clock; newObjectId := newObjectId env |}
                (incoming (Some ("Bearer " ++ tok)))
           = Return (Next {| authorization := Some ("Bearer " ++ tok);
                             req_isAuth := Some true;
                             req_userId := Some (toString (user_id u)) |}) /\
         cast (toString (user_id u)) = Return (user_id u)) /\
  ((forall u, In u (users db) -> email u <> em) ->
     login env em pw req db = (Throw (Error "Invalid credentials"), db)) /\
  (forall u, In u (users db) -> email u = em -> password u <> pw ->
     login env em pw req db = (Throw (Error "Invalid credentials"), db)).
Proof.
  intros Huniq. repeat split.
  - intros u Hin <- <-. eexists. split.
    + unfold login, bind, User_findOne_email.
      rewrite (find_email_unique _ _ Huniq Hin). rewrite String.eqb_refl. reflexivity.
    + intros clock Hc.
      assert (V : jwt_verify (jwt_sign (toString (user_id u)) (JWT_SECRET env) one_day (now env))
                    (JWT_SECRET env) clock = Return (toString (user_id u)))
        by (apply verify_sign; exact Hc).
      split; [exact V|]. split.
      * rewrite isAuth_presented. cbn [authorization incoming].
        rewrite presented_token_bearer.
        -- cbn [JWT_SECRET now req_userId]. rewrite V. reflexivity.
        -- apply sign_nonempty.
        -- unfold no_space. rewrite sign_no_space. reflexivity.
      * unfold cast. rewrite cast_toString. reflexivity.
  - intros Hno. unfold login, bind, User_findOne_email.
    destruct (find _ (users db)) as [v|] eqn:E; [|reflexivity].
    exfalso. destruct (find_some _ _ E) as [Hin Hv].
    apply String.eqb_eq in Hv. exact (Hno v Hin Hv).
  - intros u Hin <- Hpw. unfold login, bind, User_findOne_email.
    rewrite (find_email_unique _ _ Huniq Hin).
    destruct (String.eqb (password u) pw) eqn:E; [|reflexivity].
    apply String.eqb_eq in E. contradiction.
Qed.

(** *** Lesson completion *)

Lemma findById_saved {D : Type} (key : D -> ObjectId) (docs : list D)
    (id : option string) (d d' : D) :
  findById key docs id = Return (Some d) ->
  key d' = key d ->
  findById key (update_first (fun x => equals (key x) (key d)) (fun _ => d') docs) id
  = Return (Some d').
Proof.
  intros H E. destruct (findById_found _ _ _ _ H) as [s [-> [Hc Hf]]].
  unfold findById, cast. rewrite Hc.
  rewrite find_update_first_same.
  - rewrite Hf. reflexivity.
  - intros _ _. rewrite E. apply equals_refl.
Qed.

Lemma find_saved_user (us : list User) (id : option string) (u u' : User) :
  findById user_id us id = Return (Some u) ->
  user_id u' = user_id u ->
  findById user_id
    (update_first (fun v => equals (user_id v) (user_id u)) (fun _ => u') us) id
  = Return (Some u').
Proof. apply findById_saved. Qed.

Lemma completeLesson_run (courseId lesson : string) (req : Req) (db : DB) (u : User) :
  truthy_bool (req_isAuth req) = true ->
  findById user_id (users db) (req_userId req) = Return (Some u) ->
  completeLesson courseId lesson req db =
    match progress_for u courseId with
    | None => (Throw (TypeError js_undefined "completedLessons"), db)
    | Some p =>
        (Return (add_lesson lesson p),
         {| users := update_first (fun v => equals (user_id v) (user_id u))
                      (fun _ => set_progress u
                         (update_first (fun q => String.eqb (toString (course q)) courseId)
                                       (add_lesson lesson) (progress u)))
                      (users db);
            catalog := catalog db |})
    end.
Proof.
  intros Ha Hu. unfold completeLesson, progress_for.
  rewrite Ha. cbn [negb]. unfold bind at 1. unfold User_findById. rewrite Hu.
  destruct (find _ (progress u)); reflexivity.
Qed.

Lemma add_lesson_course (lesson : string) (p : Progress) :
  course (add_lesson lesson p) = course p.
Proof. unfold add_lesson. destruct (negb _); reflexivity. Qed.

Lemma add_lesson_lessons (lesson : string) (p : Progress) :
  completedLessons (add_lesson lesson p) =
    if includes (completedLessons p) lesson then completedLessons p
    else (completedLessons p ++ [lesson])%list.
Proof. unfold add_lesson. destruct (includes _ _); reflexivity. Qed.

(** C2: in an authenticated context whose user is stored and holds no
    Progress record for [courseId], [completeLesson] throws the engine's
    TypeError for reading [completedLessons] of undefined, not a named
    error, and writes nothing. *)
Theorem completeLesson_not_enrolled_TypeError
    (courseId lesson : string) (req : Req) (db : DB) (u : User) :
  truthy_bool (req_isAuth req) = true ->
  findById user_id (users db) (req_userId req) = Return (Some u) ->
  progress_for u courseId = None ->
  completeLesson courseId lesson req db
    = (Throw (TypeError js_undefined "completedLessons"), db).
Proof.
  intros Ha Hu Hp. rewrite (completeLesson_run _ _ _ _ _ Ha Hu), Hp. reflexivity.
Qed.

(** C10: for an authenticated stored user holding a Progress record for
    [courseId], [completeLesson] returns that record with [lesson] among its
    completed lessons and stores it, whatever the catalog holds: no course
    needs to list [lesson], or even to exist. *)
Theorem completeLesson_any_lesson
    (courseId lesson : string) (req : Req) (db : DB) (u : User) (p : Progress) :
  truthy_bool (req_isAuth req) = true ->
  findById user_id (users db) (req_userId req) = Return (Some u) ->
  progress_for u courseId = Some p ->
  exists p' db' u',
    completeLesson courseId lesson req db = (Return p', db') /\
    In lesson (completedLessons p') /\
    course p' = course p /\
    findById user_id (users db') (req_userId req) = Return (Some u') /\
    progress_for u' courseId = Some p' /\
    catalog db' = catalog db.
Proof.
  intros Ha Hu Hp. rewrite (completeLesson_run _ _ _ _ _ Ha Hu), Hp.
  eexists. eexists. eexists. split; [reflexivity|].
  split; [|split; [apply add_lesson_course|split; [|split; [|reflexivity]]]].
  - rewrite add_lesson_lessons.
    destruct (includes (completedLessons p) lesson) eqn:E.
    + apply includes_In. exact E.
    + apply in_or_app. right. left. reflexivity.
  - cbn [users]. apply find_saved_user; [exact Hu|reflexivity].
  - unfold progress_for, set_progress. cbn [progress].
    rewrite find_update_first_same.
    + unfold progress_for in Hp. rewrite Hp. reflexivity.
    + intros x Hx. rewrite add_lesson_course. exact Hx.
Qed.

Lemma append_all_first_occurrences (init ls : list string) :
  fold_left append_if_absent ls init
    = (init ++ first_occurrences (unseen init ls))%list.
Proof.
  induction ls as [|l ls IH] using rev_ind.
  - simpl. rewrite app_nil_r. reflexivity.
  - rewrite fold_left_app. simpl. rewrite IH. clear IH.
    unfold unseen. rewrite filter_app. simpl.
    unfold append_if_absent.
    destruct (includes init l) eqn:Ei; simpl.
    + rewrite app_nil_r.
      replace (includes _ l) with true; [reflexivity|].
      symmetry. apply includes_In. apply in_or_app. left. apply includes_In. exact Ei.
    + unfold first_occurrences. rewrite rev_app_distr. simpl.
      set (X := filter (fun x => negb (includes init x)) ls).
      destruct (in_dec string_dec l (rev X)) as [Hin|Hnin].
      * replace (includes _ l) with true; [reflexivity|].
        symmetry. apply includes_In. apply in_or_app. right.
        apply in_rev. rewrite rev_involutive. apply nodup_In. exact Hin.
      * replace (includes _ l) with false.
        -- simpl. rewrite app_assoc. reflexivity.
        -- symmetry. apply not_true_is_false. intros H. apply includes_In in H.
           apply in_app_or in H. destruct H as [H|H].
           ++ apply includes_In in H. congruence.
           ++ apply Hnin. apply in_rev in H. apply nodup_In in H. exact H.
Qed.

Lemma first_occurrences_NoDup (l : list string) : NoDup (first_occurrences l).
Proof. unfold first_occurrences. apply NoDup_rev. apply NoDup_nodup. Qed.

Lemma first_occurrences_In (l : list string) (x : string) :
  In x (first_occurrences l) <-> In x l.
Proof.
  unfold first_occurrences. rewrite <- in_rev, nodup_In, <- in_rev. reflexivity.
Qed.

Lemma completeLessons_run (calls : list (string * string)) (courseId : string)
    (req : Req) (db : DB) (u : User) (p : Progress) :
  truthy_bool (req_isAuth req) = true ->
  findById user_id (users db) (req_userId req) = Return (Some u) ->
  progress_for u courseId = Some p ->
  exists u' p',
    findById user_id (users (completeLessons calls req db)) (req_userId req)
      = Return (Some u') /\
    progress_for u' courseId = Some p' /\
    course p' = course p /\
    completedLessons p'
      = fold_left append_if_absent (requested courseId calls) (completedLessons p).
Proof.
  intros Ha. revert db u p.
  induction calls as [|[cid lesson] rest IH]; intros db u p Hu Hp.
  - exists u, p. simpl. auto.
  - cbn [completeLessons]. rewrite (completeLesson_run _ _ _ _ _ Ha Hu).
    unfold requested. cbn [filter fst].
    destruct (String.eqb cid courseId) eqn:Ec.
    + apply String.eqb_eq in Ec. subst cid. rewrite Hp. cbn [snd map fold_left].
      set (u1 := set_progress u _).
      match goal with |- context [completeLessons rest req ?d] => set (db1 := d) end.
      assert (Hu1 : findById user_id (users db1) (req_userId req) = Return (Some u1))
        by (apply find_saved_user; [exact Hu|reflexivity]).
      assert (Hp1 : progress_for u1 courseId = Some (add_lesson lesson p)).
      { unfold progress_for, u1, set_progress. cbn [progress].
        rewrite find_update_first_same.
        - unfold progress_for in Hp. rewrite Hp. reflexivity.
        - intros x Hx. rewrite add_lesson_course. exact Hx. }
      destruct (IH db1 _ _ Hu1 Hp1) as [u' [p' [H1 [H2 [H3 H4]]]]].
      exists u', p'. split; [exact H1|]. split; [exact H2|].
      split; [rewrite H3; apply add_lesson_course|].
      rewrite H4. rewrite add_lesson_lessons. reflexivity.
    + destruct (progress_for u cid) as [q|] eqn:Eq; cbn [snd].
      * set (u1 := set_progress u _).
        match goal with |- context [completeLessons rest req ?d] => set (db1 := d) end.
        assert (Hu1 : findById user_id (users db1) (req_userId req) = Return (Some u1))
          by (apply find_saved_user; [exact Hu|reflexivity]).
        assert (Hp1 : progress_for u1 courseId = Some p).
        { unfold progress_for, u1, set_progress. cbn [progress].
          rewrite find_update_first_other; [exact Hp|].
          intros x Hx. apply String.eqb_eq in Hx.
          rewrite add_lesson_course, Hx, Ec. auto. }
        exact (IH db1 _ _ Hu1 Hp1).
      * exact (IH _ _ _ Hu Hp).
Qed.

(** C3: take an authenticated stored user holding a Progress record for
    [courseId] whose completed lessons have no repetition, and any sequence of
    [completeLesson] calls made in that context (for this or other courses,
    any lesson any number of times).  Afterwards the record for [courseId]
    holds the lessons it had, followed by the newly requested ones in the
    order of their first request; no lesson is in it twice. *)
Theorem completeLesson_at_most_once (calls : list (string * string)) (courseId : string)
    (req : Req) (db : DB) (u : User) (p : Progress) :
  truthy_bool (req_isAuth req) = true ->
  findById user_id (users db) (req_userId req) = Return (Some u) ->
  progress_for u courseId = Some p ->
  NoDup (completedLessons p) ->
  exists u' p',
    findById user_id (users (completeLessons calls req db)) (req_userId req)
      = Return (Some u') /\
    progress_for u' courseId = Some p' /\
    course p' = course p /\
    completedLessons p'
      = (completedLessons p
           ++ first_occurrences (unseen (completedLessons p) (requested courseId calls)))%list /\
    NoDup (completedLessons p') /\
    (forall L, count_occ string_dec (completedLessons p') L <= 1) /\
    (forall L, In L (requested courseId calls) -> In L (completedLessons p')).
Proof.
  intros Ha Hu Hp Hnd.
  destruct (completeLessons_run calls _ _ _ _ _ Ha Hu Hp) as [u' [p' [H1 [H2 [H3 H4]]]]].
  rewrite append_all_first_occurrences in H4.
  assert (Hnd' : NoDup (completedLessons p')).
  { rewrite H4. apply NoDup_app; [exact Hnd|apply first_occurrences_NoDup|].
    intros a Hin Hin'. apply (proj1 (first_occurrences_In _ _)) in Hin'.
    unfold unseen in Hin'. apply filter_In in Hin'. destruct Hin' as [_ Hn].
    apply negb_true_iff in Hn. apply includes_In in Hin. congruence. }
  exists u', p'. do 5 (split; [assumption|]). split.
  - apply NoDup_count_occ. exact Hnd'.
  - intros L HL. rewrite H4. apply in_or_app.
    destruct (includes (completedLessons p) L) eqn:E.
    + left. apply includes_In. exact E.
    + right. apply first_occurrences_In. unfold unseen. apply filter_In.
      split; [exact HL|]. rewrite E. reflexivity.
Qed.

(** *** Enrollment *)

Lemma count_app {A : Type} (f : A -> bool) (l : list A) (x : A) :
  count f (l ++ [x]) = count f l + (if f x then 1 else 0).
Proof.
  unfold count. rewrite filter_app, length_app. simpl.
  destruct (f x); reflexivity.
Qed.

Lemma existsb_count {A : Type} (f : A -> bool) (l : list A) :
  existsb f l = false <-> count f l = 0.
Proof.
  unfold count. induction l as [|x l IH]; simpl; [tauto|].
  destruct (f x); simpl; [split; discriminate|exact IH].
Qed.

Lemma enroll_already (courseId : string) (req : Req) (db : DB) (u : User)
    (crs : option Course) :
  truthy_bool (req_isAuth req) = true ->
  findById user_id (users db) (req_userId req) = Return (Some u) ->
  findById course_id (catalog db) (Some courseId) = Return crs ->
  includes_id (enrolledCourses u) courseId = true ->
  enroll courseId req db = (Return crs, db).
Proof.
  intros Ha Hu Hc Hi. unfold enroll. rewrite Ha. cbn [negb].
  unfold bind at 1. unfold User_findById. rewrite Hu.
  unfold bind at 1. unfold Course_findById. rewrite Hc.
  rewrite Hi. reflexivity.
Qed.

Lemma enroll_new (courseId : string) (req : Req) (db : DB) (u : User) (c : Course) :
  truthy_bool (req_isAuth req) = true ->
  findById user_id (users db) (req_userId req) = Return (Some u) ->
  findById course_id (catalog db) (Some courseId) = Return (Some c) ->
  includes_id (enrolledCourses u) courseId = false ->
  enroll courseId req db =
    (Return (Some (enrolled_course c (user_id u))),
     {| users := update_first (fun v => equals (user_id v) (user_id u))
                   (fun _ => enrolled_user u (course_id c)) (users db);
        catalog := update_first (fun d => equals (course_id d) (course_id c))
                     (fun _ => enrolled_course c (user_id u)) (catalog db) |}).
Proof.
  intros Ha Hu Hc Hi. unfold enroll. rewrite Ha. cbn [negb].
  unfold bind at 1. unfold User_findById. rewrite Hu.
  unfold bind at 1. unfold Course_findById. rewrite Hc.
  rewrite Hi. cbn [negb].
  destruct (findById_found _ _ _ _ Hc) as [s [Es [Hcast _]]].
  injection Es as <-.
  unfold bind, lift, cast. rewrite Hcast. reflexivity.
Qed.

Lemma enroll_missing (courseId : string) (req : Req) (db : DB) (u : User) :
  truthy_bool (req_isAuth req) = true ->
  findById user_id (users db) (req_userId req) = Return (Some u) ->
  findById course_id (catalog db) (Some courseId) = Return None ->
  includes_id (enrolledCourses u) courseId = false ->
  enroll courseId req db = (Throw (TypeError js_null "enrolledStudents"), db).
Proof.
  intros Ha Hu Hc Hi. unfold enroll. rewrite Ha. cbn [negb].
  unfold bind at 1. unfold User_findById. rewrite Hu.
  unfold bind at 1. unfold Course_findById. rewrite Hc.
  rewrite Hi. cbn [negb].
  unfold findById in Hc. unfold bind, lift.
  destruct (cast courseId); [reflexivity|discriminate].
Qed.

Lemma other_spelling_never_included (courseId : string) (oid : ObjectId)
    (l : list ObjectId) :
  castObjectId courseId = Some oid ->
  toString oid <> courseId ->
  includes_id l courseId = false.
Proof.
  intros Hc Hne. unfold includes_id. apply not_true_is_false. intros H.
  apply existsb_exists in H. destruct H as [o [_ E]].
  apply String.eqb_eq in E. subst courseId.
  rewrite cast_toString in Hc. injection Hc as ->. contradiction.
Qed.

(** C1 (the code does not meet it): [enroll] tests membership by comparing
    the id string with the rendering of each enrolled ObjectId, while the
    course lookup and the pushes cast the string.  For a stored user and a
    stored course named by a spelling that is not the rendering of its id,
    the test fails on every call.  Both calls return the course, the second
    is not a no-op, and after both the user holds two more Progress records
    and two more enrolled entries for the course, and the course two more
    entries for the user. *)
Theorem enroll_twice_duplicates (courseId : string) (req : Req) (db : DB) (u : User) (c : Course) :
  truthy_bool (req_isAuth req) = true ->
  findById user_id (users db) (req_userId req) = Return (Some u) ->
  findById course_id (catalog db) (Some courseId) = Return (Some c) ->
  toString (course_id c) <> courseId ->
  let db1 := snd (enroll courseId req db) in
  let db2 := snd (enroll courseId req db1) in
  let record := {| course := course_id c; completedLessons := [] |} in
  exists c1 c2 u2,
    fst (enroll courseId req db) = Return (Some c1) /\
    fst (enroll courseId req db1) = Return (Some c2) /\
    db2 <> db1 /\
    findById user_id (users db2) (req_userId req) = Return (Some u2) /\
    findById course_id (catalog db2) (Some courseId) = Return (Some c2) /\
    progress u2 = (progress u ++ [record; record])%list /\
    enrolledCourses u2 = (enrolledCourses u ++ [course_id c; course_id c])%list /\
    enrolledStudents c2 = (enrolledStudents c ++ [user_id u; user_id u])%list.
Proof.
  intros Ha Hu Hc Hne db1 db2 record.
  destruct (findById_found _ _ _ _ Hc) as [s [Es [Hcast _]]]. injection Es as <-.
  assert (Hi : forall l, includes_id l courseId = false)
    by (intros l; exact (other_spelling_never_included _ _ l Hcast Hne)).
  assert (E1 : enroll courseId req db = (Return (Some (enrolled_course c (user_id u))), db1)).
  { unfold db1. rewrite (enroll_new _ _ _ _ _ Ha Hu Hc (Hi _)). reflexivity. }
  assert (D1 : db1 = {| users := update_first (fun v => equals (user_id v) (user_id u))
                                   (fun _ => enrolled_user u (course_id c)) (users db);
                        catalog := update_first (fun d => equals (course_id d) (course_id c))
                                     (fun _ => enrolled_course c (user_id u)) (catalog db) |}).
  { unfold db1. rewrite (enroll_new _ _ _ _ _ Ha Hu Hc (Hi _)). reflexivity. }
  set (u' := enrolled_user u (course_id c)) in *.
  set (c' := enrolled_course c (user_id u)) in *.
  assert (Hu' : findById user_id (users db1) (req_userId req) = Return (Some u'))
    by (rewrite D1; apply findById_saved; [exact Hu|reflexivity]).
  assert (Hc' : findById course_id (catalog db1) (Some courseId) = Return (Some c'))
    by (rewrite D1; apply findById_saved; [exact Hc|reflexivity]).
  set (u2 := enrolled_user u' (course_id c')).
  set (c2 := enrolled_course c' (user_id u')).
  assert (D2 : db2 = {| users := update_first (fun v => equals (user_id v) (user_id u'))
                                   (fun _ => u2) (users db1);
                        catalog := update_first (fun d => equals (course_id d) (course_id c'))
                                     (fun _ => c2) (catalog db1) |}).
  { unfold db2. rewrite (enroll_new _ _ _ _ _ Ha Hu' Hc' (Hi _)). reflexivity. }
  assert (Hu2 : findById user_id (users db2) (req_userId req) = Return (Some u2))
    by (rewrite D2; apply findById_saved; [exact Hu'|reflexivity]).
  assert (Hc2 : findById course_id (catalog db2) (Some courseId) = Return (Some c2))
    by (rewrite D2; apply findById_saved; [exact Hc'|reflexivity]).
  exists c', c2, u2.
  split; [rewrite E1; reflexivity|].
  split; [rewrite (enroll_new _ _ _ _ _ Ha Hu' Hc' (Hi _)); reflexivity|].
  split.
  { intros E. rewrite E, Hu' in Hu2.
    assert (Eu : u' = u2) by congruence.
    apply (f_equal (fun x => length (enrolledCourses x))) in Eu.
    unfold u2, u', enrolled_user in Eu. cbn [enrolledCourses] in Eu.
    rewrite !length_app in Eu. simpl in Eu. lia. }
  split; [exact Hu2|]. split; [exact Hc2|].
  unfold u2, c2, u', c', enrolled_user, enrolled_course.
  cbn [progress enrolledCourses enrolledStudents user_id course_id].
  rewrite <- !app_assoc. repeat split.
Qed.

(** X20: with the course id spelled as the rendering of the stored id, and
    a start in which the user is either not a member of the course (no
    Progress record, no entry in either list) or a member exactly once,
    two [enroll] calls leave exactly one Progress record and one entry in
    each list, and the second call returns the course and writes nothing. *)
Theorem enroll_twice_canonical_idempotent (courseId : string) (req : Req) (db : DB)
    (u : User) (c : Course) :
  truthy_bool (req_isAuth req) = true ->
  findById user_id (users db) (req_userId req) = Return (Some u) ->
  findById course_id (catalog db) (Some courseId) = Return (Some c) ->
  toString (course_id c) = courseId ->
  membership u c courseId = (0, 0, 0) \/ membership u c courseId = (1, 1, 1) ->
  exists c1 u2 c2,
    fst (enroll courseId req db) = Return (Some c1) /\
    course_id c1 = course_id c /\
    enroll courseId req (snd (enroll courseId req db))
      = (Return (Some c2), snd (enroll courseId req db)) /\
    findById user_id (users (snd (enroll courseId req db))) (req_userId req)
      = Return (Some u2) /\
    findById course_id (catalog (snd (enroll courseId req db))) (Some courseId)
      = Return (Some c2) /\
    user_id u2 = user_id u /\
    course_id c2 = course_id c /\
    membership u2 c2 courseId = (1, 1, 1).
Proof.
  intros Ha Hu Hc Hcanon Hm.
  assert (Hs : String.eqb courseId (toString (course_id c)) = true)
    by (rewrite Hcanon; apply String.eqb_refl).
  destruct (includes_id (enrolledCourses u) courseId) eqn:Hi.
  - rewrite (enroll_already _ _ _ _ _ Ha Hu Hc Hi) in *. cbn [fst snd] in *.
    exists c, u, c. repeat split; try assumption.
    + apply (enroll_already _ _ _ _ _ Ha Hu Hc Hi).
    + destruct Hm as [Hm|Hm]; [|exact Hm].
      exfalso. unfold membership in Hm. injection Hm as _ He _.
      unfold enrolled_count in He. apply existsb_count in He.
      unfold includes_id in Hi. congruence.
  - rewrite (enroll_new _ _ _ _ _ Ha Hu Hc Hi) in *. cbn [fst snd users catalog] in *.
    set (u' := enrolled_user u (course_id c)) in *.
    set (c' := enrolled_course c (user_id u)) in *.
    assert (Hu' : findById user_id
              (update_first (fun v => equals (user_id v) (user_id u)) (fun _ => u') (users db))
              (req_userId req) = Return (Some u'))
      by (apply findById_saved; [exact Hu|reflexivity]).
    assert (Hc' : findById course_id
              (update_first (fun d => equals (course_id d) (course_id c))
                            (fun _ => c') (catalog db))
              (Some courseId) = Return (Some c'))
      by (apply findById_saved; [exact Hc|reflexivity]).
    assert (Hi' : includes_id (enrolledCourses u') courseId = true).
    { unfold u', enrolled_user, includes_id. cbn [enrolledCourses].
      rewrite existsb_app. simpl. rewrite Hs. apply orb_true_r. }
    exists c', u', c'. repeat split; try assumption.
    + apply enroll_already with (u := u'); assumption.
    + assert (He : enrolled_count u courseId = 0)
        by (apply existsb_count; exact Hi).
      destruct Hm as [Hm|Hm]; unfold membership in Hm; injection Hm as Hp He' Hst;
        [|congruence].
      unfold membership, progress_count, enrolled_count, student_count in *.
      unfold u', c', enrolled_user, enrolled_course.
      cbn [progress enrolledCourses enrolledStudents user_id course].
      rewrite !count_app. cbn [course]. rewrite Hp, He', Hst.
      rewrite String.eqb_sym in Hs. rewrite Hs. rewrite String.eqb_sym, Hs.
      rewrite equals_refl. reflexivity.
Qed.

Lemma enrolled_course_found (db : DB) (u : User) (courseId : string) :
  enrolled_courses_exist db = true ->
  In u (users db) ->
  includes_id (enrolledCourses u) courseId = true ->
  exists c, findById course_id (catalog db) (Some courseId) = Return (Some c).
Proof.
  intros Hwf Hin Hi. unfold includes_id in Hi.
  apply existsb_exists in Hi. destruct Hi as [o [Ho Es]].
  apply String.eqb_eq in Es. subst courseId.
  unfold enrolled_courses_exist in Hwf. rewrite forallb_forall in Hwf.
  specialize (Hwf u Hin). rewrite forallb_forall in Hwf. specialize (Hwf o Ho).
  unfold findById, cast. rewrite cast_toString.
  destruct (find _ (catalog db)) as [c|] eqn:E; [eauto|].
  exfalso. apply existsb_exists in Hwf. destruct Hwf as [c [Hc Hk]].
  pose proof (find_none _ _ E c Hc) as F. simpl in F. congruence.
Qed.

Lemma findById_In {D : Type} (key : D -> ObjectId) (docs : list D) (id : option string) (d : D) :
  findById key docs id = Return (Some d) -> In d docs.
Proof.
  intros H. destruct (findById_found _ _ _ _ H) as [s [_ [_ Hf]]].
  apply find_some in Hf. tauto.
Qed.

(** C9: in a database where every enrolled course id names a stored course,
    an authenticated [enroll] by a stored user with a [courseId] for which
    [Course.findById] returns null throws the engine's TypeError for reading
    [enrolledStudents] of null, not a named error, and writes nothing. *)
Theorem enroll_missing_course_TypeError (courseId : string) (req : Req) (db : DB) (u : User) :
  enrolled_courses_exist db = true ->
  truthy_bool (req_isAuth req) = true ->
  findById user_id (users db) (req_userId req) = Return (Some u) ->
  findById course_id (catalog db) (Some courseId) = Return None ->
  enroll courseId req db = (Throw (TypeError js_null "enrolledStudents"), db).
Proof.
  intros Hwf Ha Hu Hc. apply enroll_missing with (u := u); try assumption.
  destruct (includes_id (enrolledCourses u) courseId) eqn:Hi; [|reflexivity].
  destruct (enrolled_course_found db u courseId Hwf (findById_In _ _ _ _ Hu) Hi) as [c Hc'].
  congruence.
Qed.

(** *** Nothing is ever removed *)

Lemma extends_refl {A : Type} (R : A -> A -> Prop) (l : list A) :
  (forall x, R x x) -> extends R l l.
Proof. intros HR. induction l; constructor; auto. Qed.

Lemma extends_app {A : Type} (R : A -> A -> Prop) (l more : list A) :
  (forall x, R x x) -> extends R l (l ++ more).
Proof. intros HR. induction l; simpl; constructor; auto. Qed.

Lemma extends_trans {A : Type} (R : A -> A -> Prop) (l1 l2 l3 : list A) :
  (forall x y z, R x y -> R y z -> R x z) ->
  extends R l1 l2 -> extends R l2 l3 -> extends R l1 l3.
Proof.
  intros HR H12. revert l3. induction H12; intros l3 H23; [constructor|].
  inversion H23; subst. constructor; eauto.
Qed.

Lemma extends_update_found {A : Type} (R : A -> A -> Prop) (f : A -> bool)
    (d d' : A) (l : list A) :
  (forall x, R x x) -> find f l = Some d -> R d d' ->
  extends R l (update_first f (fun _ => d') l).
Proof.
  intros HR Hf Hd. induction l as [|x l IH]; simpl in *; [discriminate|].
  destruct (f x).
  - injection Hf as ->. constructor; [exact Hd|apply extends_refl; exact HR].
  - constructor; auto.
Qed.

Lemma extends_update_first {A : Type} (R : A -> A -> Prop) (f : A -> bool)
    (g : A -> A) (l : list A) :
  (forall x, R x x) -> (forall x, R x (g x)) ->
  extends R l (update_first f g l).
Proof.
  intros HR Hg. induction l as [|x l IH]; simpl; [constructor|].
  destruct (f x); constructor; auto. apply extends_refl. exact HR.
Qed.

Lemma extends_In {A : Type} (R : A -> A -> Prop) (l l' : list A) (x : A) :
  extends R l l' -> In x l -> exists x', In x' l' /\ R x x'.
Proof.
  induction 1 as [|y y' l l' Hy _ IH]; simpl; [contradiction|].
  intros [->|Hin].
  - exists y'. auto.
  - destruct (IH Hin) as [x' [H1 H2]]. exists x'. auto.
Qed.

Lemma extends_length {A : Type} (R : A -> A -> Prop) (l l' : list A) :
  extends R l l' -> length l <= length l'.
Proof. induction 1; simpl; lia. Qed.

Lemma lessons_grow_refl (l : list string) : lessons_grow l l.
Proof. exists []. rewrite app_nil_r. reflexivity. Qed.

Lemma lessons_grow_trans (l1 l2 l3 : list string) :
  lessons_grow l1 l2 -> lessons_grow l2 l3 -> lessons_grow l1 l3.
Proof.
  intros [a ->] [b ->]. exists (a ++ b)%list. rewrite app_assoc. reflexivity.
Qed.

Lemma progress_grows_refl (p : Progress) : progress_grows p p.
Proof. split; [reflexivity|apply lessons_grow_refl]. Qed.

Lemma progress_grows_trans (p1 p2 p3 : Progress) :
  progress_grows p1 p2 -> progress_grows p2 p3 -> progress_grows p1 p3.
Proof.
  intros [E1 G1] [E2 G2]. split; [congruence|].
  exact (lessons_grow_trans _ _ _ G1 G2).
Qed.

Lemma progress_grows_add_lesson (lesson : string) (p : Progress) :
  progress_grows p (add_lesson lesson p).
Proof.
  split; [apply add_lesson_course|]. rewrite add_lesson_lessons.
  destruct (includes _ _); [apply lessons_grow_refl|].
  exists [lesson]. reflexivity.
Qed.

Lemma user_grows_refl (u : User) : user_grows u u.
Proof. split; [reflexivity|]. apply extends_refl. exact progress_grows_refl. Qed.

Lemma user_grows_trans (u1 u2 u3 : User) :
  user_grows u1 u2 -> user_grows u2 u3 -> user_grows u1 u3.
Proof.
  intros [E1 G1] [E2 G2]. split; [congruence|].
  exact (extends_trans _ _ _ _ progress_grows_trans G1 G2).
Qed.

Lemma db_grows_refl (db : DB) : db_grows db db.
Proof.
  split; apply extends_refl; [exact user_grows_refl|reflexivity].
Qed.

Lemma db_grows_trans (db1 db2 db3 : DB) :
  db_grows db1 db2 -> db_grows db2 db3 -> db_grows db1 db3.
Proof.
  intros [U1 C1] [U2 C2]. split.
  - exact (extends_trans _ _ _ _ user_grows_trans U1 U2).
  - apply (extends_trans _ _ _ _ (fun x y z (a : course_kept x y) (b : course_kept y z) =>
                                    eq_trans b a) C1 C2).
Qed.

(** What [enroll] leaves in the database: nothing new, or the two saved
    documents in the places of the loaded ones. *)
Lemma enroll_db (courseId : string) (req : Req) (db : DB) :
  snd (enroll courseId req db) = db \/
  exists u c,
    find (fun v => equals (user_id v) (user_id u)) (users db) = Some u /\
    find (fun d => equals (course_id d) (course_id c)) (catalog db) = Some c /\
    snd (enroll courseId req db) =
      {| users := update_first (fun v => equals (user_id v) (user_id u))
                    (fun _ => enrolled_user u (course_id c)) (users db);
         catalog := update_first (fun d => equals (course_id d) (course_id c))
                      (fun _ => enrolled_course c (user_id u)) (catalog db) |}.
Proof.
  destruct (truthy_bool (req_isAuth req)) eqn:Ha.
  2:{ left. unfold enroll. rewrite Ha. reflexivity. }
  destruct (findById user_id (users db) (req_userId req)) as [[u|]|e] eqn:Hu.
  - destruct (findById course_id (catalog db) (Some courseId)) as [[c|]|e] eqn:Hc.
    + destruct (includes_id (enrolledCourses u) courseId) eqn:Hi.
      * left. rewrite (enroll_already _ _ _ _ _ Ha Hu Hc Hi). reflexivity.
      * right. exists u, c.
        destruct (findById_found _ _ _ _ Hu) as [s [_ [_ Hfu]]].
        destruct (findById_found _ _ _ _ Hc) as [s' [_ [_ Hfc]]].
        rewrite (enroll_new _ _ _ _ _ Ha Hu Hc Hi). auto.
    + left. destruct (includes_id (enrolledCourses u) courseId) eqn:Hi.
      * rewrite (enroll_already _ _ _ _ _ Ha Hu Hc Hi). reflexivity.
      * rewrite (enroll_missing _ _ _ _ Ha Hu Hc Hi). reflexivity.
    + left. unfold enroll. rewrite Ha. cbn [negb].
      unfold bind at 1. unfold User_findById. rewrite Hu.
      unfold bind at 1. unfold Course_findById. rewrite Hc. reflexivity.
  - left. unfold enroll. rewrite Ha. cbn [negb].
    unfold bind at 1. unfold User_findById. rewrite Hu.
    unfold bind at 1. unfold Course_findById.
    destruct (findById course_id (catalog db) (Some courseId)); reflexivity.
  - left. unfold enroll. rewrite Ha. cbn [negb].
    unfold bind at 1. unfold User_findById. rewrite Hu. reflexivity.
Qed.

(** What [completeLesson] leaves in the database. *)
Lemma completeLesson_db (courseId lesson : string) (req : Req) (db : DB) :
  snd (completeLesson courseId lesson req db) = db \/
  exists u,
    find (fun v => equals (user_id v) (user_id u)) (users db) = Some u /\
    snd (completeLesson courseId lesson req db) =
      {| users := update_first (fun v => equals (user_id v) (user_id u))
                    (fun _ => set_progress u
                       (update_first (fun q => String.eqb (toString (course q)) courseId)
                                     (add_lesson lesson) (progress u)))
                    (users db);
         catalog := catalog db |}.
Proof.
  destruct (truthy_bool (req_isAuth req)) eqn:Ha.
  2:{ left. unfold completeLesson. rewrite Ha. reflexivity. }
  destruct (findById user_id (users db) (req_userId req)) as [[u|]|e] eqn:Hu.
  - rewrite (completeLesson_run _ _ _ _ _ Ha Hu).
    destruct (progress_for u courseId); [|left; reflexivity].
    right. exists u. destruct (findById_found _ _ _ _ Hu) as [s [_ [_ Hfu]]]. auto.
  - left. unfold completeLesson. rewrite Ha. cbn [negb].
    unfold bind at 1. unfold User_findById. rewrite Hu. reflexivity.
  - left. unfold completeLesson. rewrite Ha. cbn [negb].
    unfold bind at 1. unfold User_findById. rewrite Hu. reflexivity.
Qed.

(** What [register] leaves in the database. *)
Lemma register_db (env : Env) (nm em pw : string) (req : Req) (db : DB) :
  snd (register env nm em pw req db) = db \/
  find (fun u => String.eqb (email u) em) (users db) = None /\
  snd (register env nm em pw req db) =
    {| users := users db ++ [{| user_id := newObjectId env; name := nm; email := em;
                                password := pw; enrolledCourses := []; progress := [] |}];
       catalog := catalog db |}.
Proof.
  unfold register, bind, User_findOne_email.
  destruct (find _ (users db)); [left|right]; auto.
Qed.

Lemma snd_fmap {A B : Type} (f : A -> B) (m : Async A) (db : DB) :
  snd (fmap f m db) = snd (m db).
Proof. unfold fmap, bind, ret. destruct (m db) as [[a|e] db']; reflexivity. Qed.

(** The four read-only resolvers write nothing. *)
Lemma read_only_db (env : Env) (req : Req) (db : DB) :
  (forall cat, snd (courses cat req db) = db) /\
  snd (myCourses req db) = db /\
  (forall courseId, snd (myProgress courseId req db) = db) /\
  (forall em pw, snd (login env em pw req db) = db).
Proof.
  repeat split.
  - intros cat. unfold courses. destruct (truthy_string cat); [|reflexivity].
    destruct cat; reflexivity.
  - unfold myCourses. destruct (negb _); [reflexivity|].
    unfold bind, User_findById.
    destruct (findById user_id (users db) (req_userId req)) as [[u|]|e]; reflexivity.
  - intros courseId. unfold myProgress. destruct (negb _); [reflexivity|].
    unfold bind, User_findById.
    destruct (findById user_id (users db) (req_userId req)) as [[u|]|e]; reflexivity.
  - intros em pw. unfold login, bind, User_findOne_email.
    destruct (find _ (users db)) as [u|]; [|reflexivity].
    destruct (negb _); reflexivity.
Qed.

Lemma resolve_grows (env : Env) (op : Op) (req : Req) (db : DB) :
  db_grows db (snd (resolve env op req db)).
Proof.
  destruct (read_only_db env req db) as [R1 [R2 [R3 R4]]].
  destruct op; cbn [resolve]; rewrite snd_fmap.
  - rewrite R1. apply db_grows_refl.
  - rewrite R2. apply db_grows_refl.
  - rewrite R3. apply db_grows_refl.
  - destruct (register_db env nm em pw req db) as [->|[_ ->]]; [apply db_grows_refl|].
    split; cbn [users catalog].
    + apply extends_app. exact user_grows_refl.
    + apply extends_refl. reflexivity.
  - rewrite R4. apply db_grows_refl.
  - destruct (enroll_db courseId req db) as [->|[u [c [Hu [Hc ->]]]]]; [apply db_grows_refl|].
    split; cbn [users catalog].
    + apply extends_update_found with (d := u); [exact user_grows_refl|exact Hu|].
      split; [reflexivity|]. cbn [enrolled_user progress].
      apply extends_app. exact progress_grows_refl.
    + apply extends_update_found with (d := c); [reflexivity|exact Hc|reflexivity].
  - destruct (completeLesson_db courseId lesson req db) as [->|[u [Hu ->]]];
      [apply db_grows_refl|].
    split; cbn [users catalog].
    + apply extends_update_found with (d := u); [exact user_grows_refl|exact Hu|].
      split; [reflexivity|]. cbn [set_progress progress].
      apply extends_update_first;
        [exact progress_grows_refl|apply progress_grows_add_lesson].
    + apply extends_refl. reflexivity.
Qed.

(** C7: across any sequence of operations, in any request contexts, the
    database only grows: every stored user and course is still stored under
    its id, every Progress record of every user is still held by that user
    for the same course, and every lesson it listed as completed is still
    listed. *)
Theorem progress_only_grows (requests : list (Env * Op * Req)) (db : DB) :
  db_grows db (resolve_all requests db) /\
  (forall c, In c (catalog db) ->
     exists c', In c' (catalog (resolve_all requests db)) /\ course_id c' = course_id c) /\
  (forall u, In u (users db) ->
     exists u', In u' (users (resolve_all requests db)) /\ user_id u' = user_id u /\
       length (progress u) <= length (progress u') /\
       forall p, In p (progress u) ->
         exists p', In p' (progress u') /\ course p' = course p /\
           forall L, In L (completedLessons p) -> In L (completedLessons p')).
Proof.
  assert (G : db_grows db (resolve_all requests db)).
  { revert db. induction requests as [|[[env op] req] rest IH]; intros db.
    - apply db_grows_refl.
    - cbn [resolve_all]. eapply db_grows_trans; [apply resolve_grows|apply IH]. }
  split; [exact G|]. destruct G as [GU GC]. split.
  - intros c Hc. destruct (extends_In _ _ _ _ GC Hc) as [c' [H1 H2]]. eauto.
  - intros u Hu. destruct (extends_In _ _ _ _ GU Hu) as [u' [H1 [H2 H3]]].
    exists u'. split; [exact H1|]. split; [exact H2|].
    split; [exact (extends_length _ _ _ H3)|].
    intros p Hp. destruct (extends_In _ _ _ _ H3 Hp) as [p' [P1 [P2 [added P3]]]].
    exists p'. split; [exact P1|]. split; [exact P2|].
    intros L HL. rewrite P3. apply in_or_app. left. exact HL.
Qed.

(** *** The state predicates are invariants of the server *)

Lemma map_update_found {A B : Type} (k : A -> B) (f : A -> bool) (d d' : A) (l : list A) :
  find f l = Some d -> k d' = k d ->
  map k (update_first f (fun _ => d') l) = map k l.
Proof.
  intros Hf Hk. induction l as [|x l IH]; simpl in *; [reflexivity|].
  destruct (f x).
  - injection Hf as ->. simpl. rewrite Hk. reflexivity.
  - simpl. rewrite (IH Hf). reflexivity.
Qed.

Lemma existsb_map {A B : Type} (k : A -> B) (h : B -> bool) (l : list A) :
  existsb (fun x => h (k x)) l = existsb h (map k l).
Proof. induction l as [|x l IH]; simpl; [reflexivity|]. rewrite IH. reflexivity. Qed.

Lemma unique_emails_map (l l' : list User) :
  map email l = map email l' -> unique_emails l = unique_emails l'.
Proof.
  revert l'. induction l as [|u l IH]; intros [|u' l'] H; try discriminate; [reflexivity|].
  simpl in H. injection H as He Hm. simpl.
  rewrite (IH _ Hm), He.
  rewrite (existsb_map email (fun s => String.eqb s (email u')) l).
  rewrite (existsb_map email (fun s => String.eqb s (email u')) l').
  rewrite Hm. reflexivity.
Qed.

Lemma forallb_update_found {A : Type} (h f : A -> bool) (d d' : A) (l : list A) :
  find f l = Some d -> (h d = true -> h d' = true) ->
  forallb h l = true -> forallb h (update_first f (fun _ => d') l) = true.
Proof.
  intros Hf Hd. induction l as [|x l IH]; simpl in *; [reflexivity|].
  intros H. apply andb_true_iff in H. destruct H as [Hx Hl].
  destruct (f x).
  - injection Hf as ->. simpl. rewrite (Hd Hx), Hl. reflexivity.
  - simpl. rewrite Hx, (IH Hf Hl). reflexivity.
Qed.

Lemma forallb_pointwise {A : Type} (f g : A -> bool) (l : list A) :
  (forall x, f x = g x) -> forallb f l = forallb g l.
Proof.
  intros E. induction l as [|x l IH]; simpl; [reflexivity|].
  rewrite E, IH. reflexivity.
Qed.

Lemma existsb_course_saved (cs : list Course) (c c' : Course) (oid : ObjectId) :
  find (fun d => equals (course_id d) (course_id c)) cs = Some c ->
  course_id c' = course_id c ->
  existsb (fun d => equals (course_id d) oid)
          (update_first (fun d => equals (course_id d) (course_id c)) (fun _ => c') cs)
  = existsb (fun d => equals (course_id d) oid) cs.
Proof.
  intros Hf Hk.
  rewrite (existsb_map course_id (fun k => equals k oid)).
  rewrite (existsb_map course_id (fun k => equals k oid) cs).
  rewrite (map_update_found course_id _ c c' cs Hf Hk). reflexivity.
Qed.

Lemma In_update_first {A : Type} (f : A -> bool) (g : A -> A) (l : list A) (x : A) :
  In x (update_first f g l) -> In x l \/ exists y, In y l /\ x = g y.
Proof.
  induction l as [|y l IH]; simpl; [contradiction|].
  destruct (f y); simpl.
  - intros [<-|H]; [right; exists y; auto|auto].
  - intros [<-|H]; [auto|].
    destruct (IH H) as [H'|[z [Hz E]]]; [auto|right; exists z; auto].
Qed.

Lemma add_lesson_NoDup (lesson : string) (p : Progress) :
  NoDup (completedLessons p) -> NoDup (completedLessons (add_lesson lesson p)).
Proof.
  intros H. rewrite add_lesson_lessons.
  destruct (includes (completedLessons p) lesson) eqn:E; [exact H|].
  apply NoDup_app; [exact H|repeat constructor; intros []|].
  intros a Ha [<-|[]]. apply includes_In in Ha. congruence.
Qed.

(** Every resolver keeps completed lessons free of repetitions. *)
Lemma resolve_keeps_lessons_unique (env : Env) (op : Op) (req : Req) (db : DB) :
  lessons_unique db -> lessons_unique (snd (resolve env op req db)).
Proof.
  intros H.
  destruct (read_only_db env req db) as [R1 [R2 [R3 R4]]].
  destruct op; cbn [resolve]; rewrite snd_fmap; rewrite ?R1, ?R2, ?R3, ?R4; try exact H.
  - destruct (register_db env nm em pw req db) as [->|[_ ->]]; [exact H|].
    intros u Hu p Hp. cbn [users] in Hu. apply in_app_or in Hu.
    destruct Hu as [Hu|[<-|[]]]; [exact (H u Hu p Hp)|destruct Hp].
  - destruct (enroll_db courseId req db) as [->|[u [c [Hu [_ ->]]]]]; [exact H|].
    intros v Hv p Hp. cbn [users] in Hv.
    apply In_update_first in Hv. destruct Hv as [Hv|[y [_ ->]]]; [exact (H v Hv p Hp)|].
    cbn [enrolled_user progress] in Hp. apply in_app_or in Hp.
    destruct Hp as [Hp|[<-|[]]]; [|constructor].
    apply find_some in Hu. exact (H u (proj1 Hu) p Hp).
  - destruct (completeLesson_db courseId lesson req db) as [->|[u [Hu ->]]]; [exact H|].
    intros v Hv p Hp. cbn [users] in Hv.
    apply In_update_first in Hv. destruct Hv as [Hv|[y [_ ->]]]; [exact (H v Hv p Hp)|].
    cbn [set_progress progress] in Hp. apply find_some in Hu.
    apply In_update_first in Hp. destruct Hp as [Hp|[q [Hq ->]]].
    + exact (H u (proj1 Hu) p Hp).
    + apply add_lesson_NoDup. exact (H u (proj1 Hu) q Hq).
Qed.

(** Every resolver keeps emails unique and enrolled course ids resolvable. *)
Lemma resolve_keeps_invariants (env : Env) (op : Op) (req : Req) (db : DB) :
  (unique_emails (users db) = true ->
   unique_emails (users (snd (resolve env op req db))) = true) /\
  (enrolled_courses_exist db = true ->
   enrolled_courses_exist (snd (resolve env op req db)) = true).
Proof.
  destruct (read_only_db env req db) as [R1 [R2 [R3 R4]]].
  destruct op; cbn [resolve]; rewrite snd_fmap;
    try (rewrite ?R1, ?R2, ?R3, ?R4; split; intros H; exact H).
  - split.
    + apply register_keeps_unique_emails.
    + destruct (register_db env nm em pw req db) as [->|[_ ->]]; [auto|].
      unfold enrolled_courses_exist. cbn [users catalog].
      intros H. rewrite forallb_app, H. reflexivity.
  - destruct (enroll_db courseId req db) as [->|[u [c [Hu [Hc ->]]]]]; [auto|].
    split; cbn [users].
    + intros H. rewrite <- H. apply unique_emails_map.
      apply map_update_found with (d := u); [exact Hu|reflexivity].
    + unfold enrolled_courses_exist. cbn [users catalog]. intros H.
      erewrite forallb_pointwise.
      2:{ intros v. apply forallb_pointwise. intros oid.
          apply existsb_course_saved; [exact Hc|reflexivity]. }
      apply forallb_update_found with (d := u); [exact Hu| |exact H].
      intros Hold. cbn [enrolled_user enrolledCourses]. rewrite forallb_app, Hold.
      simpl. rewrite andb_true_r. apply existsb_exists. exists c.
      apply find_some in Hc. destruct Hc as [Hin _].
      split; [exact Hin|apply equals_refl].
  - destruct (completeLesson_db courseId lesson req db) as [->|[u [Hu ->]]]; [auto|].
    split; cbn [users].
    + intros H. rewrite <- H. apply unique_emails_map.
      apply map_update_found with (d := u); [exact Hu|reflexivity].
    + unfold enrolled_courses_exist. cbn [users catalog]. intros H.
      apply forallb_update_found with (d := u); [exact Hu| |exact H].
      intros Hold. exact Hold.
Qed.

(** *** Requests without a usable identity *)

(** X1: in a context that is not authenticated, each of [myCourses],
    [myProgress], [enroll] and [completeLesson] throws "Unauthorized"
    whatever its arguments, before it reads or writes anything. *)
Theorem unauthorized_before_anything (env : Env) (op : Op) (req : Req) (db : DB) :
  gated op = true ->
  truthy_bool (req_isAuth req) = false ->
  resolve env op req db = (Throw (Error "Unauthorized"), db).
Proof.
  intros Hg Ha.
  destruct op; try discriminate Hg; cbn [resolve]; unfold fmap, bind;
    [unfold myCourses|unfold myProgress|unfold enroll|unfold completeLesson];
    rewrite Ha; reflexivity.
Qed.

(** X2: a request whose Authorization header carries no token, or a token
    that [jwt.verify] rejects, gets "Unauthorized" from every gated
    operation, and the database stays as it was. *)
Theorem serve_rejects_anonymous (env : Env) (header : option string) (op : Op) (db : DB) :
  gated op = true ->
  presented_token header = None \/
  (exists tok e, presented_token header = Some tok /\
                 jwt_verify tok (JWT_SECRET env) (now env) = Throw e) ->
  serve env header op db = (Throw (Error "Unauthorized"), db).
Proof.
  intros Hg H. unfold serve. rewrite isAuth_presented. cbn [authorization incoming].
  destruct H as [->|[tok [e [-> ->]]]].
  - destruct op; try discriminate Hg; reflexivity.
  - destruct op; try discriminate Hg; reflexivity.
Qed.

(** X3: an authenticated context whose user id names no stored user (the
    lookup returns null) makes every gated resolver throw the engine's
    TypeError on null, and nothing is written. *)
Theorem stored_user_required (courseId lesson : string) (req : Req) (db : DB) :
  truthy_bool (req_isAuth req) = true ->
  findById user_id (users db) (req_userId req) = Return None ->
  myCourses req db = (Throw (TypeError js_null "enrolledCourses"), db) /\
  myProgress courseId req db = (Throw (TypeError js_null "progress"), db) /\
  completeLesson courseId lesson req db = (Throw (TypeError js_null "progress"), db) /\
  (forall crs, findById course_id (catalog db) (Some courseId) = Return crs ->
     enroll courseId req db = (Throw (TypeError js_null "enrolledCourses"), db)).
Proof.
  intros Ha Hu. repeat split.
  - unfold myCourses. rewrite Ha. cbn [negb]. unfold bind, User_findById.
    rewrite Hu. reflexivity.
  - unfold myProgress. rewrite Ha. cbn [negb]. unfold bind, User_findById.
    rewrite Hu. reflexivity.
  - unfold completeLesson. rewrite Ha. cbn [negb]. unfold bind, User_findById.
    rewrite Hu. reflexivity.
  - intros crs Hc. unfold enroll. rewrite Ha. cbn [negb].
    unfold bind at 1. unfold User_findById. rewrite Hu.
    unfold bind at 1. unfold Course_findById. rewrite Hc. reflexivity.
Qed.

(** *** The Authorization header *)

Lemma presented_token_any_scheme (scheme tok : string) :
  no_space scheme = true -> no_space tok = true -> tok <> "" ->
  presented_token (Some (scheme ++ String " " tok)) = Some tok.
Proof.
  intros Hs Ht Hne. unfold presented_token.
  unfold no_space in Hs, Ht. apply negb_true_iff in Hs. apply negb_true_iff in Ht.
  rewrite (split_word _ _ _ Hs), (split_no_sep _ _ Ht).
  destruct tok; [contradiction|reflexivity].
Qed.

(** X4: [isAuth] never looks at the first word of the header.  Whatever
    stands before the first space ("Bearer", "Basic", nothing at all), the
    word after it is verified as the token, and the resulting context is the
    one "Bearer" would give. *)
Theorem isAuth_ignores_scheme (env : Env) (scheme tok : string) :
  no_space scheme = true -> no_space tok = true -> tok <> "" ->
  exists req1 req2,
    isAuth env (incoming (Some (scheme ++ String " " tok))) = Return (Next req1) /\
    isAuth env (incoming (Some ("Bearer " ++ tok))) = Return (Next req2) /\
    req_isAuth req1 = req_isAuth req2 /\
    req_userId req1 = req_userId req2 /\
    (forall uid, jwt_verify tok (JWT_SECRET env) (now env) = Return uid ->
       req_isAuth req1 = Some true /\ req_userId req1 = Some uid).
Proof.
  intros Hs Ht Hne. eexists. eexists.
  split; [apply isAuth_presented|]. split; [apply isAuth_presented|].
  cbn [authorization incoming].
  rewrite (presented_token_any_scheme _ _ Hs Ht Hne).
  rewrite (presented_token_bearer _ Hne Ht).
  destruct (jwt_verify tok (JWT_SECRET env) (now env)) as [uid|e]; cbn.
  - split; [reflexivity|]. split; [reflexivity|].
    intros uid' E. injection E as <-. split; reflexivity.
  - split; [reflexivity|]. split; [reflexivity|].
    intros uid' E. discriminate E.
Qed.

(** X5: when two spaces follow the first word of the header, the word
    [isAuth] takes as the token is empty: the request goes on without an
    identity and [jwt.verify] is not consulted, whatever comes after. *)
Theorem isAuth_double_space (env : Env) (scheme rest : string) :
  no_space scheme = true ->
  isAuth env (incoming (Some (scheme ++ String " " (String " " rest))))
    = Return (Next (incoming (Some (scheme ++ String " " (String " " rest))))).
Proof.
  intros Hs. rewrite isAuth_presented. cbn [authorization incoming].
  unfold presented_token.
  unfold no_space in Hs. apply negb_true_iff in Hs.
  rewrite (split_word _ _ _ Hs). cbn [split]. rewrite Ascii.eqb_refl.
  reflexivity.
Qed.

(** *** Registration followed by login *)

Lemma find_none_iff {A : Type} (f : A -> bool) (l : list A) :
  (forall x, In x l -> f x = false) -> find f l = None.
Proof.
  induction l as [|x l IH]; simpl; intros H; [reflexivity|].
  rewrite (H x (or_introl eq_refl)). apply IH. intros y Hy. apply H. right. exact Hy.
Qed.

Lemma find_app_none {A : Type} (f : A -> bool) (l more : list A) :
  find f l = None -> find f (l ++ more) = find f more.
Proof.
  induction l as [|x l IH]; simpl; [reflexivity|].
  destruct (f x); [discriminate|exact IH].
Qed.

(** X6: [register] with an email no stored user has appends one user with
    the id drawn, the given name, email and password and empty enrollment,
    and touches nothing else.  From then on, [login] with that email and
    password returns a token for the new id, any other password is refused,
    and a second [register] with that email is refused. *)
Theorem register_then_login (env env' : Env) (nm em pw : string) (req req' : Req) (db : DB) :
  (forall u, In u (users db) -> email u <> em) ->
  let created := {| user_id := newObjectId env; name := nm; email := em; password := pw;
                    enrolledCourses := []; progress := [] |} in
  let db' := {| users := users db ++ [created]; catalog := catalog db |} in
  register env nm em pw req db = (Return created, db') /\
  login env' em pw req' db'
    = (Return {| token := jwt_sign (toString (newObjectId env)) (JWT_SECRET env')
                                   one_day (now env');
                 userId := newObjectId env |}, db') /\
  (forall pw2, pw2 <> pw ->
     login env' em pw2 req' db' = (Throw (Error "Invalid credentials"), db')) /\
  (forall nm2 pw2,
     register env' nm2 em pw2 req' db' = (Throw (Error "Email already registered"), db')).
Proof.
  intros Hnew created db'.
  assert (F : find (fun u => String.eqb (email u) em) (users db) = None).
  { apply find_none_iff. intros u Hu. apply String.eqb_neq. exact (Hnew u Hu). }
  assert (F' : find (fun u => String.eqb (email u) em) (users db') = Some created).
  { unfold db'. cbn [users]. rewrite (find_app_none _ _ _ F). simpl.
    rewrite String.eqb_refl. reflexivity. }
  repeat split.
  - unfold register, bind, User_findOne_email. rewrite F. reflexivity.
  - unfold login, bind, User_findOne_email. rewrite F'. cbn [password created].
    rewrite String.eqb_refl. reflexivity.
  - intros pw2 Hpw. unfold login, bind, User_findOne_email. rewrite F'.
    cbn [password created].
    destruct (String.eqb pw pw2) eqn:E; [|reflexivity].
    apply String.eqb_eq in E. congruence.
  - intros nm2 pw2. unfold register, bind, User_findOne_email. rewrite F'. reflexivity.
Qed.

(** *** Enrollment followed by other operations *)

Lemma existsb_false_In {A : Type} (f : A -> bool) (l : list A) :
  existsb f l = false -> forall x, In x l -> f x = false.
Proof.
  intros H x Hx. destruct (f x) eqn:E; [|reflexivity].
  assert (existsb f l = true) by (apply existsb_exists; eauto). congruence.
Qed.

Lemma no_progress_when_not_enrolled (u : User) (courseId : string) :
  map course (progress u) = enrolledCourses u ->
  includes_id (enrolledCourses u) courseId = false ->
  progress_for u courseId = None.
Proof.
  intros Hm Hi. unfold progress_for. apply find_none_iff. intros p Hp.
  unfold includes_id in Hi. rewrite <- Hm in Hi.
  rewrite <- (existsb_map course (fun o => String.eqb courseId (toString o))) in Hi.
  rewrite String.eqb_sym. exact (existsb_false_In _ _ Hi p Hp).
Qed.

(** X7: a user whose Progress records mirror the enrolled list enrolls, for
    the first time, in a stored course named by the rendering of its id.
    The next [completeLesson] for that id finds the record [enroll] made and
    returns it with exactly that one lesson. *)
Theorem enroll_then_completeLesson (courseId lesson : string) (req : Req) (db : DB)
    (u : User) (c : Course) :
  truthy_bool (req_isAuth req) = true ->
  findById user_id (users db) (req_userId req) = Return (Some u) ->
  findById course_id (catalog db) (Some courseId) = Return (Some c) ->
  toString (course_id c) = courseId ->
  map course (progress u) = enrolledCourses u ->
  includes_id (enrolledCourses u) courseId = false ->
  fst (completeLesson courseId lesson req (snd (enroll courseId req db)))
    = Return {| course := course_id c; completedLessons := [lesson] |}.
Proof.
  intros Ha Hu Hc Hs Hm Hi.
  rewrite (enroll_new _ _ _ _ _ Ha Hu Hc Hi). cbn [snd].
  set (u' := enrolled_user u (course_id c)).
  set (db1 := Build_DB _ _).
  assert (Hu' : findById user_id (users db1) (req_userId req) = Return (Some u'))
    by (apply findById_saved; [exact Hu|reflexivity]).
  rewrite (completeLesson_run _ _ _ _ _ Ha Hu').
  assert (Hp : progress_for u' courseId
               = Some {| course := course_id c; completedLessons := [] |}).
  { unfold progress_for, u', enrolled_user. cbn [progress].
    rewrite find_app_none by (apply no_progress_when_not_enrolled; assumption).
    simpl. rewrite Hs, String.eqb_refl. reflexivity. }
  rewrite Hp. reflexivity.
Qed.

(** X8: after a first [enroll] in a stored course, [myCourses] in the same
    context ends with that course, carrying the user among its students. *)
Theorem enroll_then_myCourses (courseId : string) (req : Req) (db : DB)
    (u : User) (c : Course) :
  truthy_bool (req_isAuth req) = true ->
  findById user_id (users db) (req_userId req) = Return (Some u) ->
  findById course_id (catalog db) (Some courseId) = Return (Some c) ->
  includes_id (enrolledCourses u) courseId = false ->
  let db1 := snd (enroll courseId req db) in
  myCourses req db1
    = (Return (populate_courses (enrolledCourses u) (catalog db1)
                 ++ [enrolled_course c (user_id u)])%list, db1).
Proof.
  intros Ha Hu Hc Hi db1. unfold db1. clear db1.
  rewrite (enroll_new _ _ _ _ _ Ha Hu Hc Hi). cbn [snd].
  set (u' := enrolled_user u (course_id c)).
  set (c' := enrolled_course c (user_id u)).
  set (db1 := Build_DB _ _).
  assert (Hu' : findById user_id (users db1) (req_userId req) = Return (Some u'))
    by (apply findById_saved; [exact Hu|reflexivity]).
  unfold myCourses. rewrite Ha. cbn [negb]. unfold bind, User_findById. rewrite Hu'.
  unfold populate_courses, u', enrolled_user. cbn [enrolledCourses].
  rewrite flat_map_app. cbn [flat_map]. rewrite app_nil_r.
  replace (find (fun d => equals (course_id d) (course_id c)) (catalog db1)) with (Some c');
    [reflexivity|].
  unfold db1. cbn [catalog]. rewrite find_update_first_same.
  - destruct (findById_found _ _ _ _ Hc) as [s [_ [_ Hf]]]. rewrite Hf. reflexivity.
  - intros _ _. apply equals_refl.
Qed.

Lemma populate_courses_ids (ids : list ObjectId) (cs : list Course) :
  forallb (fun oid => existsb (fun c => equals (course_id c) oid) cs) ids = true ->
  map course_id (populate_courses ids cs) = ids /\
  forall c, In c (populate_courses ids cs) -> In c cs.
Proof.
  induction ids as [|oid ids IH]; simpl; intros H; [split; [reflexivity|contradiction]|].
  apply andb_true_iff in H. destruct H as [Ho Hids].
  destruct (IH Hids) as [IH1 IH2].
  destruct (find (fun c => equals (course_id c) oid) cs) as [c|] eqn:E.
  - destruct (find_some _ _ E) as [Hin Hk]. apply equals_eq in Hk.
    simpl. rewrite IH1, Hk. split; [reflexivity|].
    intros d [<-|Hd]; [exact Hin|exact (IH2 d Hd)].
  - exfalso. apply existsb_exists in Ho. destruct Ho as [c [Hc Hk]].
    pose proof (find_none _ _ E c Hc) as F. simpl in F. congruence.
Qed.

(** X9: when every enrolled course id names a stored course, [myCourses]
    returns one stored course per entry of the user's enrolled list, in the
    order of enrollment, and writes nothing. *)
Theorem myCourses_in_enrollment_order (req : Req) (db : DB) (u : User) :
  enrolled_courses_exist db = true ->
  truthy_bool (req_isAuth req) = true ->
  findById user_id (users db) (req_userId req) = Return (Some u) ->
  exists cs,
    myCourses req db = (Return cs, db) /\
    map course_id cs = enrolledCourses u /\
    forall c, In c cs -> In c (catalog db).
Proof.
  intros Hwf Ha Hu. eexists. split.
  - unfold myCourses. rewrite Ha. cbn [negb]. unfold bind, User_findById. rewrite Hu.
    reflexivity.
  - apply populate_courses_ids.
    unfold enrolled_courses_exist in Hwf. rewrite forallb_forall in Hwf.
    apply Hwf. exact (findById_In _ _ _ _ Hu).
Qed.

(** *** Reading and repeating lesson completion *)

Lemma forallb_map_comp {A B : Type} (k : A -> B) (h : B -> bool) (l : list A) :
  forallb (fun x => h (k x)) l = forallb h (map k l).
Proof. induction l as [|x l IH]; simpl; [reflexivity|]. rewrite IH. reflexivity. Qed.

Lemma find_throwing_populated (cs : list Course) (courseId : string) (ps : list Progress) :
  forallb (fun p => existsb (fun c => equals (course_id c) (course p)) cs) ps = true ->
  find_throwing
    (fun pp => match pp_course pp with
               | None => Throw (TypeError js_null "_id")
               | Some c => Return (String.eqb (toString (course_id c)) courseId)
               end)
    (map (populate_progress cs) ps)
  = Return (option_map (populate_progress cs)
              (find (fun p => String.eqb (toString (course p)) courseId) ps)).
Proof.
  induction ps as [|p ps IH]; simpl; intros H; [reflexivity|].
  apply andb_true_iff in H. destruct H as [Hp Hps].
  destruct (find (fun c => equals (course_id c) (course p)) cs) as [c|] eqn:E.
  - destruct (find_some _ _ E) as [_ Hk]. apply equals_eq in Hk. rewrite Hk.
    destruct (String.eqb (toString (course p)) courseId).
    + reflexivity.
    + exact (IH Hps).
  - exfalso. apply existsb_exists in Hp. destruct Hp as [c [Hc Hk]].
    pose proof (find_none _ _ E c Hc) as F. simpl in F. congruence.
Qed.

(** X10: for a stored user whose Progress records mirror the enrolled list,
    in a database where enrolled ids name stored courses, [myProgress]
    returns the record [completeLesson] works on, with its course document
    and its completed lessons; when the user has no record for the id it
    returns undefined, it does not throw. *)
Theorem myProgress_reads_record (courseId : string) (req : Req) (db : DB) (u : User) :
  enrolled_courses_exist db = true ->
  truthy_bool (req_isAuth req) = true ->
  findById user_id (users db) (req_userId req) = Return (Some u) ->
  map course (progress u) = enrolledCourses u ->
  match progress_for u courseId with
  | Some p =>
      exists c, In c (catalog db) /\ course_id c = course p /\
        myProgress courseId req db
          = (Return (Some {| pp_course := Some c;
                             pp_completedLessons := completedLessons p |}), db)
  | None => myProgress courseId req db = (Return None, db)
  end.
Proof.
  intros Hwf Ha Hu Hm.
  assert (Hall : forallb (fun p => existsb (fun c => equals (course_id c) (course p))
                                          (catalog db)) (progress u) = true).
  { rewrite (forallb_map_comp course
               (fun oid => existsb (fun c => equals (course_id c) oid) (catalog db))).
    rewrite Hm. unfold enrolled_courses_exist in Hwf. rewrite forallb_forall in Hwf.
    apply Hwf. exact (findById_In _ _ _ _ Hu). }
  assert (R : myProgress courseId req db
              = (Return (option_map (populate_progress (catalog db))
                           (progress_for u courseId)), db)).
  { unfold myProgress. rewrite Ha. cbn [negb]. unfold bind, User_findById. rewrite Hu.
    rewrite (find_throwing_populated _ _ _ Hall). reflexivity. }
  destruct (progress_for u courseId) as [p|] eqn:Ep; [|exact R].
  unfold progress_for in Ep. apply find_some in Ep. destruct Ep as [Hin _].
  rewrite forallb_forall in Hall. specialize (Hall p Hin).
  destruct (find (fun c => equals (course_id c) (course p)) (catalog db)) as [c|] eqn:E.
  - exists c. destruct (find_some _ _ E) as [Hc Hk]. apply equals_eq in Hk.
    split; [exact Hc|]. split; [exact Hk|].
    rewrite R. cbn [option_map]. unfold populate_progress. rewrite E. reflexivity.
  - exfalso. apply existsb_exists in Hall. destruct Hall as [c [Hc Hk]].
    pose proof (find_none _ _ E c Hc) as F. simpl in F. congruence.
Qed.

Lemma update_first_fixed {A : Type} (f : A -> bool) (g : A -> A) (l : list A) (x : A) :
  find f l = Some x -> g x = x -> update_first f g l = l.
Proof.
  intros Hf Hg. induction l as [|y l IH]; simpl in *; [reflexivity|].
  destruct (f y).
  - injection Hf as ->. rewrite Hg. reflexivity.
  - rewrite (IH Hf). reflexivity.
Qed.

Lemma add_lesson_twice (lesson : string) (p : Progress) :
  add_lesson lesson (add_lesson lesson p) = add_lesson lesson p.
Proof.
  unfold add_lesson at 1.
  replace (includes (completedLessons (add_lesson lesson p)) lesson) with true;
    [reflexivity|].
  symmetry. apply includes_In. rewrite add_lesson_lessons.
  destruct (includes (completedLessons p) lesson) eqn:E.
  - apply includes_In. exact E.
  - apply in_or_app. right. left. reflexivity.
Qed.

(** X11: a [completeLesson] call that succeeded, made again with the same
    course id and lesson in the same context, returns the same record and
    leaves the database exactly as the first call left it. *)
Theorem completeLesson_repeat_changes_nothing
    (courseId lesson : string) (req : Req) (db : DB) (u : User) (p : Progress) :
  truthy_bool (req_isAuth req) = true ->
  findById user_id (users db) (req_userId req) = Return (Some u) ->
  progress_for u courseId = Some p ->
  completeLesson courseId lesson req (snd (completeLesson courseId lesson req db))
    = completeLesson courseId lesson req db.
Proof.
  intros Ha Hu Hp.
  rewrite (completeLesson_run _ _ _ _ _ Ha Hu), Hp. cbn [snd].
  set (matches := fun q => String.eqb (toString (course q)) courseId).
  set (u1 := set_progress u (update_first matches (add_lesson lesson) (progress u))).
  set (db1 := Build_DB _ _).
  assert (Hu1 : findById user_id (users db1) (req_userId req) = Return (Some u1))
    by (apply find_saved_user; [exact Hu|reflexivity]).
  assert (Hp1 : progress_for u1 courseId = Some (add_lesson lesson p)).
  { unfold progress_for, u1, set_progress. cbn [progress].
    rewrite find_update_first_same.
    - unfold progress_for in Hp. rewrite Hp. reflexivity.
    - intros x Hx. rewrite add_lesson_course. exact Hx. }
  rewrite (completeLesson_run _ _ _ _ _ Ha Hu1), Hp1.
  rewrite add_lesson_twice. f_equal.
  assert (Hps : update_first matches (add_lesson lesson) (progress u1) = progress u1)
    by (apply update_first_fixed with (x := add_lesson lesson p);
        [exact Hp1|apply add_lesson_twice]).
  fold matches. rewrite Hps.
  assert (Eu : set_progress u1 (progress u1) = u1) by reflexivity.
  rewrite Eu. unfold db1. cbn [users catalog]. f_equal.
  apply update_first_fixed with (x := u1); [|reflexivity].
  destruct (findById_found _ _ _ _ Hu1) as [s [_ [_ Hf]]]. exact Hf.
Qed.

(** X12: a successful [completeLesson] changes, of the calling user, only
    the record it located: the enrolled list, the credentials, the number of
    records and every record located by another course id stay as they
    were; users with another id and the catalog are not touched. *)
Theorem completeLesson_changes_one_record
    (courseId lesson : string) (req : Req) (db : DB) (u : User) (p : Progress) :
  truthy_bool (req_isAuth req) = true ->
  findById user_id (users db) (req_userId req) = Return (Some u) ->
  progress_for u courseId = Some p ->
  let db' := snd (completeLesson courseId lesson req db) in
  catalog db' = catalog db /\
  (forall v, In v (users db) -> user_id v <> user_id u -> In v (users db')) /\
  exists u',
    findById user_id (users db') (req_userId req) = Return (Some u') /\
    (user_id u', name u', email u', password u')
      = (user_id u, name u, email u, password u) /\
    enrolledCourses u' = enrolledCourses u /\
    length (progress u') = length (progress u) /\
    forall other, other <> courseId -> progress_for u' other = progress_for u other.
Proof.
  intros Ha Hu Hp db'. unfold db'. clear db'.
  rewrite (completeLesson_run _ _ _ _ _ Ha Hu), Hp. cbn [snd users catalog].
  split; [reflexivity|]. split.
  - intros v Hv Hne. clear Hu Hp. induction (users db) as [|w l IH]; [contradiction|].
    simpl. destruct (equals (user_id w) (user_id u)) eqn:E.
    + destruct Hv as [<-|Hv]; [|right; exact Hv].
      apply equals_eq in E. contradiction.
    + destruct Hv as [<-|Hv]; [left; reflexivity|right; exact (IH Hv)].
  - eexists. split; [apply find_saved_user; [exact Hu|reflexivity]|].
    cbn [set_progress user_id name email password enrolledCourses progress].
    split; [reflexivity|]. split; [reflexivity|]. split.
    + clear. induction (progress u) as [|q l IH]; simpl; [reflexivity|].
      destruct (String.eqb (toString (course q)) courseId); simpl; congruence.
    + intros other Hne. unfold progress_for. apply find_update_first_other.
      intros x Hx. apply String.eqb_eq in Hx.
      rewrite add_lesson_course, Hx.
      assert (E : String.eqb courseId other = false) by (apply String.eqb_neq; congruence).
      rewrite E. auto.
Qed.

(** *** More invariants of the server *)

Lemma map_update_first_keep {A B : Type} (k : A -> B) (f : A -> bool) (g : A -> A)
    (l : list A) :
  (forall x, k (g x) = k x) -> map k (update_first f g l) = map k l.
Proof.
  intros Hk. induction l as [|x l IH]; simpl; [reflexivity|].
  destruct (f x); simpl; [rewrite Hk|rewrite IH]; reflexivity.
Qed.

Lemma resolve_keeps_mirror (env : Env) (op : Op) (req : Req) (db : DB) :
  progress_mirrors_enrolled db ->
  progress_mirrors_enrolled (snd (resolve env op req db)).
Proof.
  intros H.
  destruct (read_only_db env req db) as [R1 [R2 [R3 R4]]].
  destruct op; cbn [resolve]; rewrite snd_fmap; rewrite ?R1, ?R2, ?R3, ?R4; try exact H.
  - destruct (register_db env nm em pw req db) as [->|[_ ->]]; [exact H|].
    intros u Hu. cbn [users] in Hu. apply in_app_or in Hu.
    destruct Hu as [Hu|[<-|[]]]; [exact (H u Hu)|reflexivity].
  - destruct (enroll_db courseId req db) as [->|[u [c [Hu [_ ->]]]]]; [exact H|].
    intros v Hv. cbn [users] in Hv.
    apply In_update_first in Hv. destruct Hv as [Hv|[y [_ ->]]]; [exact (H v Hv)|].
    cbn [enrolled_user progress enrolledCourses]. rewrite map_app.
    apply find_some in Hu. rewrite (H u (proj1 Hu)). reflexivity.
  - destruct (completeLesson_db courseId lesson req db) as [->|[u [Hu ->]]]; [exact H|].
    intros v Hv. cbn [users] in Hv.
    apply In_update_first in Hv. destruct Hv as [Hv|[y [_ ->]]]; [exact (H v Hv)|].
    cbn [set_progress progress enrolledCourses].
    rewrite map_update_first_keep by (intros x; apply add_lesson_course).
    apply find_some in Hu. exact (H u (proj1 Hu)).
Qed.

(** X13: across any sequence of operations every stored user keeps one
    Progress record per entry of the enrolled list, for the same course id
    at the same position: [enroll] is the only writer of both and appends
    to both together. *)
Theorem progress_mirrors_enrolled_always (requests : list (Env * Op * Req)) (db : DB) :
  progress_mirrors_enrolled db ->
  forall u, In u (users (resolve_all requests db)) ->
    map course (progress u) = enrolledCourses u /\
    length (progress u) = length (enrolledCourses u).
Proof.
  intros H.
  assert (G : progress_mirrors_enrolled (resolve_all requests db)).
  { revert db H. induction requests as [|[[env op] req] rest IH]; intros db H; [exact H|].
    cbn [resolve_all]. apply IH. apply resolve_keeps_mirror. exact H. }
  intros u Hu. split; [exact (G u Hu)|].
  rewrite <- (G u Hu). rewrite length_map. reflexivity.
Qed.

Lemma prefix_refl {A : Type} (l : list A) : prefix l l.
Proof. exists []. rewrite app_nil_r. reflexivity. Qed.

Lemma prefix_trans {A : Type} (l1 l2 l3 : list A) :
  prefix l1 l2 -> prefix l2 l3 -> prefix l1 l3.
Proof. intros [a ->] [b ->]. exists (a ++ b)%list. rewrite app_assoc. reflexivity. Qed.

Lemma enrollment_grows_refl (u : User) : enrollment_grows u u.
Proof. split; [reflexivity|apply prefix_refl]. Qed.

Lemma enrollment_grows_trans (u1 u2 u3 : User) :
  enrollment_grows u1 u2 -> enrollment_grows u2 u3 -> enrollment_grows u1 u3.
Proof.
  intros [E1 P1] [E2 P2]. split; [congruence|exact (prefix_trans _ _ _ P1 P2)].
Qed.

Lemma resolve_catalog_content (env : Env) (op : Op) (req : Req) (db : DB) :
  map course_content (catalog (snd (resolve env op req db))) = map course_content (catalog db) /\
  extends students_grow (catalog db) (catalog (snd (resolve env op req db))).
Proof.
  assert (Same : forall cs, extends students_grow cs cs)
    by (intros cs; apply extends_refl; intros x; apply prefix_refl).
  destruct (read_only_db env req db) as [R1 [R2 [R3 R4]]].
  destruct op; cbn [resolve]; rewrite snd_fmap; rewrite ?R1, ?R2, ?R3, ?R4; auto.
  - destruct (register_db env nm em pw req db) as [->|[_ ->]]; auto.
  - destruct (enroll_db courseId req db) as [->|[u [c [_ [Hc ->]]]]]; auto.
    cbn [catalog]. split.
    + apply map_update_found with (d := c); [exact Hc|reflexivity].
    + apply extends_update_found with (d := c);
        [intros x; apply prefix_refl|exact Hc|].
      exists [user_id u]. reflexivity.
  - destruct (completeLesson_db courseId lesson req db) as [->|[u [_ ->]]]; auto.
Qed.

(** X14: no sequence of operations creates, removes, reorders or edits a
    course: ids, titles, descriptions, categories, lessons and quizzes stay
    as stored, and the only change a course ever sees is student ids
    appended to its student list. *)
Theorem catalog_content_fixed (requests : list (Env * Op * Req)) (db : DB) :
  map course_content (catalog (resolve_all requests db)) = map course_content (catalog db) /\
  length (catalog (resolve_all requests db)) = length (catalog db) /\
  extends students_grow (catalog db) (catalog (resolve_all requests db)).
Proof.
  assert (G : map course_content (catalog (resolve_all requests db))
              = map course_content (catalog db) /\
              extends students_grow (catalog db) (catalog (resolve_all requests db))).
  { revert db. induction requests as [|[[env op] req] rest IH]; intros db.
    - split; [reflexivity|]. apply extends_refl. intros x. apply prefix_refl.
    - cbn [resolve_all].
      destruct (IH (snd (resolve env op req db))) as [I1 I2].
      destruct (resolve_catalog_content env op req db) as [S1 S2].
      split; [congruence|].
      refine (extends_trans _ _ _ _ _ S2 I2). intros x y z. apply prefix_trans. }
  destruct G as [G1 G2]. split; [exact G1|]. split; [|exact G2].
  rewrite <- (length_map course_content), G1. apply length_map.
Qed.

Lemma resolve_enrollment_grows (env : Env) (op : Op) (req : Req) (db : DB) :
  extends enrollment_grows (users db) (users (snd (resolve env op req db))).
Proof.
  assert (Same : forall us, extends enrollment_grows us us)
    by (intros us; apply extends_refl; exact enrollment_grows_refl).
  destruct (read_only_db env req db) as [R1 [R2 [R3 R4]]].
  destruct op; cbn [resolve]; rewrite snd_fmap; rewrite ?R1, ?R2, ?R3, ?R4; auto.
  - destruct (register_db env nm em pw req db) as [->|[_ ->]]; auto.
    cbn [users]. apply extends_app. exact enrollment_grows_refl.
  - destruct (enroll_db courseId req db) as [->|[u [c [Hu [_ ->]]]]]; auto.
    cbn [users]. apply extends_update_found with (d := u);
      [exact enrollment_grows_refl|exact Hu|].
    split; [reflexivity|]. exists [course_id c]. reflexivity.
  - destruct (completeLesson_db courseId lesson req db) as [->|[u [Hu ->]]]; auto.
    cbn [users]. apply extends_update_found with (d := u);
      [exact enrollment_grows_refl|exact Hu|].
    split; [reflexivity|apply prefix_refl].
Qed.

(** X15: no sequence of operations changes a stored user's id, name, email
    or password, or takes a course out of a user's enrolled list: each user
    stays at its position with the same credentials and an enrolled list
    that has only been appended to. *)
Theorem credentials_fixed_enrollment_grows (requests : list (Env * Op * Req)) (db : DB) :
  extends enrollment_grows (users db) (users (resolve_all requests db)) /\
  forall u, In u (users db) ->
    exists u', In u' (users (resolve_all requests db)) /\
      credentials u' = credentials u /\
      forall oid, In oid (enrolledCourses u) -> In oid (enrolledCourses u').
Proof.
  assert (G : extends enrollment_grows (users db) (users (resolve_all requests db))).
  { revert db. induction requests as [|[[env op] req] rest IH]; intros db.
    - apply extends_refl. exact enrollment_grows_refl.
    - cbn [resolve_all].
      exact (extends_trans _ _ _ _ enrollment_grows_trans
               (resolve_enrollment_grows env op req db) (IH _)). }
  split; [exact G|]. intros u Hu.
  destruct (extends_In _ _ _ _ G Hu) as [u' [H1 [H2 [more H3]]]].
  exists u'. split; [exact H1|]. split; [exact H2|].
  intros oid Ho. rewrite H3. apply in_or_app. left. exact Ho.
Qed.

Lemma equals_neq (a b : ObjectId) : a <> b -> equals a b = false.
Proof.
  intros H. destruct (equals a b) eqn:E; [|reflexivity].
  apply equals_eq in E. contradiction.
Qed.

Lemma count_absent (x : ObjectId) (l : list ObjectId) :
  ~ In x l -> count (fun o => equals o x) l = 0.
Proof.
  intros H. apply existsb_count. apply not_true_is_false. intros E.
  apply existsb_exists in E. destruct E as [o [Ho Eo]].
  apply equals_eq in Eo. subst. contradiction.
Qed.

Lemma In_update_found_unique {A : Type} (key : A -> ObjectId) (l : list A) (d d' x : A) :
  NoDup (map key l) ->
  find (fun y => equals (key y) (key d)) l = Some d ->
  In x (update_first (fun y => equals (key y) (key d)) (fun _ => d') l) ->
  x = d' \/ (In x l /\ key x <> key d).
Proof.
  induction l as [|y l IH]; simpl; intros Hnd Hf Hx; [contradiction|].
  inversion Hnd as [|k ks Hnotin Hnd']; subst.
  destruct (equals (key y) (key d)) eqn:E.
  - injection Hf as ->. destruct Hx as [<-|Hx]; [left; reflexivity|].
    right. split; [right; exact Hx|].
    intros Ek. apply Hnotin. rewrite <- Ek. apply in_map. exact Hx.
  - destruct Hx as [<-|Hx].
    + right. split; [left; reflexivity|].
      intros Ek. rewrite Ek, equals_refl in E. discriminate.
    + destruct (IH Hnd' Hf Hx) as [->|[Hin Hne]]; [left; reflexivity|].
      right. split; [right; exact Hin|exact Hne].
Qed.

Lemma resolve_keeps_views (env : Env) (op : Op) (req : Req) (db : DB) :
  unique_ids db -> views_agree db ->
  (forall nm em pw, op = Register nm em pw -> fresh_id env db) ->
  unique_ids (snd (resolve env op req db)) /\ views_agree (snd (resolve env op req db)).
Proof.
  intros [Uu Uc] V Hfresh.
  destruct (read_only_db env req db) as [R1 [R2 [R3 R4]]].
  destruct op; cbn [resolve]; rewrite snd_fmap; rewrite ?R1, ?R2, ?R3, ?R4;
    try (split; [split; assumption|exact V]).
  - destruct (register_db env nm em pw req db) as [->|[_ ->]];
      [split; [split; assumption|exact V]|].
    destruct (Hfresh nm em pw eq_refl) as [F1 F2].
    split; [split|]; cbn [users catalog].
    + rewrite map_app. apply NoDup_app; [exact Uu|repeat constructor; intros []|].
      intros a Ha [<-|[]]. apply in_map_iff in Ha. destruct Ha as [u [Eu Hu]].
      exact (F1 u Hu Eu).
    + exact Uc.
    + intros u c Hu Hc. cbn [users catalog] in Hu, Hc. apply in_app_or in Hu.
      destruct Hu as [Hu|[<-|[]]]; [exact (V u c Hu Hc)|].
      cbn [enrolledCourses user_id]. rewrite (count_absent _ _ (F2 c Hc)). reflexivity.
  - destruct (enroll_db courseId req db) as [->|[u [c [Hu [Hc ->]]]]];
      [split; [split; assumption|exact V]|].
    split; [split|]; cbn [users catalog].
    + erewrite map_update_found; [exact Uu|exact Hu|reflexivity].
    + erewrite map_update_found; [exact Uc|exact Hc|reflexivity].
    + intros v d Hv Hd. cbn [users catalog] in Hv, Hd.
      pose proof (find_some _ _ Hu) as [Hinu _].
      pose proof (find_some _ _ Hc) as [Hinc _].
      apply (In_update_found_unique user_id _ u _ v Uu Hu) in Hv.
      apply (In_update_found_unique course_id _ c _ d Uc Hc) in Hd.
      destruct Hv as [->|[Hv Hnv]]; destruct Hd as [->|[Hd Hnd]];
        cbn [enrolled_user enrolled_course enrolledCourses enrolledStudents user_id course_id];
        rewrite ?count_app.
      * rewrite !equals_refl, (V u c Hinu Hinc). reflexivity.
      * rewrite (equals_neq (course_id c) (course_id d)) by congruence.
        rewrite (V u d Hinu Hd). lia.
      * rewrite (equals_neq (user_id u) (user_id v)) by congruence.
        rewrite (V v c Hv Hinc). lia.
      * exact (V v d Hv Hd).
  - destruct (completeLesson_db courseId lesson req db) as [->|[u [Hu ->]]];
      [split; [split; assumption|exact V]|].
    split; [split|]; cbn [users catalog].
    + erewrite map_update_found; [exact Uu|exact Hu|reflexivity].
    + exact Uc.
    + intros v d Hv Hd. cbn [users catalog] in Hv, Hd.
      pose proof (find_some _ _ Hu) as [Hinu _].
      apply In_update_first in Hv. destruct Hv as [Hv|[y [_ ->]]]; [exact (V v d Hv Hd)|].
      cbn [set_progress enrolledCourses user_id]. exact (V u d Hinu Hd).
Qed.

(** X16: with unique ids, and every registration drawing an id new to the
    database, the two views of enrollment stay in agreement across any
    sequence of operations: a course is in a user's enrolled list exactly as
    often as the user is in that course's student list, and ids stay unique. *)
Theorem enrollment_views_agree (requests : list (Env * Op * Req)) (db : DB) :
  unique_ids db -> views_agree db -> fresh_draws requests db ->
  unique_ids (resolve_all requests db) /\ views_agree (resolve_all requests db).
Proof.
  revert db. induction requests as [|[[env op] req] rest IH]; intros db U V F.
  - split; assumption.
  - cbn [resolve_all]. cbn [fresh_draws] in F. destruct F as [F1 F2].
    destruct (resolve_keeps_views env op req db U V F1) as [U' V'].
    exact (IH _ U' V' F2).
Qed.

(** *** From login to the resolvers *)

Lemma find_by_unique_id {D : Type} (key : D -> ObjectId) (docs : list D) (d : D) :
  NoDup (map key docs) -> In d docs ->
  find (fun x => equals (key x) (key d)) docs = Some d.
Proof.
  induction docs as [|y l IH]; simpl; intros Hnd Hin; [contradiction|].
  inversion Hnd as [|k ks Hnotin Hnd']; subst.
  destruct Hin as [->|Hin].
  - rewrite equals_refl. reflexivity.
  - destruct (equals (key y) (key d)) eqn:E; [|exact (IH Hnd' Hin)].
    exfalso. apply equals_eq in E. apply Hnotin. rewrite E. apply in_map. exact Hin.
Qed.

(** X17: with unique emails and unique user ids, the token [login] returns
    to a stored user, sent as "Bearer <token>" within one day, makes every
    operation run in an authenticated context in which the resolvers load
    the stored user with that id, also after the database has moved on. *)
Theorem login_token_acts_for_user (env : Env) (clock : N) (em pw : string)
    (req : Req) (db : DB) (u : User) (op : Op) (db' : DB) (v : User) :
  unique_emails (users db) = true ->
  In u (users db) -> email u = em -> password u = pw ->
  NoDup (map user_id (users db')) ->
  In v (users db') -> user_id v = user_id u ->
  (clock < now env + one_day)%N ->
  exists tok,
    login env em pw req db = (Return {| token := tok; userId := user_id u |}, db) /\
    let env' := {| JWT_SECRET := JWT_SECRET env; now := clock;
                   newObjectId := newObjectId env |} in
    let ctx := {| authorization := Some ("Bearer " ++ tok); req_isAuth := Some true;
                  req_userId := Some (toString (user_id u)) |} in
    serve env' (Some ("Bearer " ++ tok)) op db' = resolve env' op ctx db' /\
    findById user_id (users db') (req_userId ctx) = Return (Some v).
Proof.
  intros Huniq Hin <- <- Hids Hin' Hid Hc. eexists. split.
  - unfold login, bind, User_findOne_email.
    rewrite (find_email_unique _ _ Huniq Hin). rewrite String.eqb_refl. reflexivity.
  - cbn zeta. split.
    + unfold serve. rewrite isAuth_presented. cbn [authorization incoming].
      rewrite presented_token_bearer;
        [|apply sign_nonempty|unfold no_space; rewrite sign_no_space; reflexivity].
      cbn [JWT_SECRET now req_userId].
      rewrite (verify_sign _ _ _ _ _ Hc). reflexivity.
    + cbn [req_userId]. unfold findById, cast. rewrite cast_toString.
      rewrite <- Hid. rewrite (find_by_unique_id user_id _ v Hids Hin'). reflexivity.
Qed.

(** *** Course ids that do not cast *)

(** X18: for a stored authenticated user and a course id the schema cannot
    cast to an ObjectId, [enroll] throws the cast error of the course lookup
    and writes nothing, while [completeLesson], which never casts the id,
    finds no record and throws the TypeError on undefined. *)
Theorem uncastable_course_id (courseId lesson : string) (req : Req) (db : DB) (u : User) :
  truthy_bool (req_isAuth req) = true ->
  findById user_id (users db) (req_userId req) = Return (Some u) ->
  castObjectId courseId = None ->
  enroll courseId req db = (Throw (CastError courseId), db) /\
  completeLesson courseId lesson req db
    = (Throw (TypeError js_undefined "completedLessons"), db).
Proof.
  intros Ha Hu Hc. split.
  - unfold enroll. rewrite Ha. cbn [negb].
    unfold bind at 1. unfold User_findById. rewrite Hu.
    unfold bind at 1. unfold Course_findById, findById, cast. rewrite Hc. reflexivity.
  - rewrite (completeLesson_run _ _ _ _ _ Ha Hu).
    replace (progress_for u courseId) with (@None Progress); [reflexivity|].
    symmetry. unfold progress_for. apply find_none_iff. intros p _.
    apply String.eqb_neq. intros E.
    rewrite <- E, cast_toString in Hc. discriminate.
Qed.

(** *** Whom [enroll] writes to *)

Lemma In_update_first_other {A : Type} (f : A -> bool) (g : A -> A) (l : list A) (x : A) :
  In x l -> f x = false -> In x (update_first f g l).
Proof.
  intros Hin Hf. induction l as [|y l IH]; [contradiction|]. simpl.
  destruct (f y) eqn:E.
  - destruct Hin as [<-|Hin]; [congruence|right; exact Hin].
  - destruct Hin as [<-|Hin]; [left; reflexivity|right; exact (IH Hin)].
Qed.

Lemma enroll_db_casts (courseId : string) (req : Req) (db : DB) :
  snd (enroll courseId req db) = db \/
  exists u c s,
    req_userId req = Some s /\
    castObjectId s = Some (user_id u) /\
    castObjectId courseId = Some (course_id c) /\
    snd (enroll courseId req db) =
      {| users := update_first (fun v => equals (user_id v) (user_id u))
                    (fun _ => enrolled_user u (course_id c)) (users db);
         catalog := update_first (fun d => equals (course_id d) (course_id c))
                      (fun _ => enrolled_course c (user_id u)) (catalog db) |}.
Proof.
  destruct (truthy_bool (req_isAuth req)) eqn:Ha.
  2:{ left. unfold enroll. rewrite Ha. reflexivity. }
  destruct (findById user_id (users db) (req_userId req)) as [[u|]|e] eqn:Hu.
  - destruct (findById course_id (catalog db) (Some courseId)) as [[c|]|e] eqn:Hc.
    + destruct (includes_id (enrolledCourses u) courseId) eqn:Hi.
      * left. rewrite (enroll_already _ _ _ _ _ Ha Hu Hc Hi). reflexivity.
      * right. exists u, c.
        destruct (findById_found _ _ _ _ Hu) as [s [Es [Hcu _]]].
        destruct (findById_found _ _ _ _ Hc) as [s' [Es' [Hcc _]]].
        injection Es' as <-. exists s.
        rewrite (enroll_new _ _ _ _ _ Ha Hu Hc Hi). auto.
    + left. destruct (includes_id (enrolledCourses u) courseId) eqn:Hi.
      * rewrite (enroll_already _ _ _ _ _ Ha Hu Hc Hi). reflexivity.
      * rewrite (enroll_missing _ _ _ _ Ha Hu Hc Hi). reflexivity.
    + left. unfold enroll. rewrite Ha. cbn [negb].
      unfold bind at 1. unfold User_findById. rewrite Hu.
      unfold bind at 1. unfold Course_findById. rewrite Hc. reflexivity.
  - left. unfold enroll. rewrite Ha. cbn [negb].
    unfold bind at 1. unfold User_findById. rewrite Hu.
    unfold bind at 1. unfold Course_findById.
    destruct (findById course_id (catalog db) (Some courseId)); reflexivity.
  - left. unfold enroll. rewrite Ha. cbn [negb].
    unfold bind at 1. unfold User_findById. rewrite Hu. reflexivity.
Qed.

(** X19: whatever the outcome, [enroll] leaves every stored user in place
    except the one the context's user id casts to, and every stored course
    except the one the course id casts to. *)
Theorem enroll_writes_two_documents (courseId : string) (req : Req) (db : DB) :
  (forall v, In v (users db) ->
     (forall s, req_userId req = Some s -> castObjectId s <> Some (user_id v)) ->
     In v (users (snd (enroll courseId req db)))) /\
  (forall d, In d (catalog db) ->
     castObjectId courseId <> Some (course_id d) ->
     In d (catalog (snd (enroll courseId req db)))).
Proof.
  destruct (enroll_db_casts courseId req db) as [->|[u [c [s [Es [Hcu [Hcc ->]]]]]]].
  - split; intros; assumption.
  - cbn [users catalog]. split.
    + intros v Hv Hne. apply In_update_first_other; [exact Hv|].
      apply equals_neq. intros E. apply (Hne s Es). rewrite Hcu, E. reflexivity.
    + intros d Hd Hne. apply In_update_first_other; [exact Hd|].
      apply equals_neq. intros E. apply Hne. rewrite Hcc, E. reflexivity.
Qed.

End Server.

(** ** The reference implementations satisfy the interfaces *)

Module ReferenceFacts.
Import Reference.

Lemma string_of_uint_nonempty (d : Hexadecimal.uint) :
  d <> Hexadecimal.Nil -> HexadecimalString.NilEmpty.string_of_uint d <> "".
Proof. destruct d; simpl; congruence. Qed.

Lemma number_toString_nonempty (n : N) : number_toString n <> "".
Proof.
  unfold number_toString. apply string_of_uint_nonempty.
  destruct n as [|p]; simpl; [discriminate|].
  apply HexadecimalPos.Unsigned.to_uint_nonnil.
Qed.

Lemma number_cast_toString (n : N) : number_cast (number_toString n) = Some n.
Proof.
  unfold number_cast. pose proof (number_toString_nonempty n) as Hne.
  destruct (number_toString n) as [|a s] eqn:E; [contradiction|].
  rewrite <- E. unfold number_toString.
  rewrite HexadecimalString.NilEmpty.usu. simpl.
  rewrite HexadecimalN.Unsigned.of_to. reflexivity.
Qed.

Lemma digit_value_digit (d : N) : (d < 16)%N -> digit_value (digit d) = Some d.
Proof.
  intros H. rewrite <- (N2Nat.id d) at 2. unfold digit.
  assert (Hn : N.to_nat d < 16) by lia.
  destruct (N.to_nat d) as [|n]; [reflexivity|].
  do 15 (destruct n as [|n]; [reflexivity|]). lia.
Qed.

Lemma parse_render (k : nat) (n : N) (rest : string) (acc : N) :
  parse (render k n rest) acc
  = parse rest (acc * 16 ^ N.of_nat k + n mod 16 ^ N.of_nat k)%N.
Proof.
  revert n rest. induction k as [|k IH]; intros n rest.
  - simpl. rewrite N.mod_1_r. f_equal. lia.
  - cbn [render]. rewrite IH. cbn [parse].
    rewrite digit_value_digit by (apply N.mod_lt; discriminate).
    f_equal. rewrite Nat2N.inj_succ, N.pow_succ_r'.
    rewrite (N.Div0.mod_mul_r n 16 (16 ^ N.of_nat k)). lia.
Qed.

Lemma length_render (k : nat) (n : N) (rest : string) :
  String.length (render k n rest) = k + String.length rest.
Proof.
  revert n rest. induction k as [|k IH]; intros n rest; [reflexivity|].
  cbn [render]. rewrite IH. simpl. lia.
Qed.

Lemma oid_eq (a b : Oid) : oid_value a = oid_value b -> a = b.
Proof.
  destruct a as [v Hv], b as [w Hw]. simpl. intros ->. f_equal.
  apply (Eqdep_dec.UIP_dec Bool.bool_dec).
Qed.

Lemma oid_equals_spec (a b : Oid) : oid_equals a b = true <-> a = b.
Proof.
  unfold oid_equals. rewrite N.eqb_eq. split; [apply oid_eq|intros ->; reflexivity].
Qed.

Lemma oid_cast_toString (x : Oid) : oid_cast (oid_toString x) = Some x.
Proof.
  unfold oid_cast, oid_toString. rewrite length_render. cbn [String.length Nat.add Nat.eqb].
  rewrite parse_render. cbn [parse].
  pose proof (oid_ok x) as Hx. apply N.ltb_lt in Hx.
  change (16 ^ N.of_nat 24)%N with (2 ^ 96)%N.
  rewrite N.mod_small by exact Hx. rewrite N.mul_0_l, N.add_0_l.
  destruct (in_range (oid_value x)) as [H|H].
  - f_equal. apply oid_eq. reflexivity.
  - apply N.ltb_ge in H. lia.
Qed.

Lemma existsb_append (f : ascii -> bool) (a b : string) :
  existsb f (list_ascii_of_string (a ++ b))
  = existsb f (list_ascii_of_string a) || existsb f (list_ascii_of_string b).
Proof.
  induction a as [|c a IH]; simpl; [reflexivity|].
  rewrite IH, orb_assoc. reflexivity.
Qed.

(** A separator that is not a hexadecimal digit does not occur in a rendering. *)
Lemma hex_no_sep (sep : ascii) (n : N) :
  existsb (Ascii.eqb sep) (list_ascii_of_string "0123456789abcdef") = false ->
  existsb (Ascii.eqb sep) (list_ascii_of_string (number_toString n)) = false.
Proof.
  intros H. unfold number_toString. generalize (N.to_hex_uint n). clear n.
  simpl in H. repeat (apply orb_false_iff in H; destruct H as [? H]).
  intros d. induction d; simpl; rewrite ?IHd; try reflexivity;
    apply orb_false_iff; split; auto.
Qed.

Lemma unbit_bit (b : bool) : unbit (bit b) = Some b.
Proof. destruct b; reflexivity. Qed.

Lemma decode_encode (s : string) : decode (encode s) = Some s.
Proof.
  induction s as [|[b0 b1 b2 b3 b4 b5 b6 b7] s IH]; [reflexivity|].
  cbn [encode decode]. unfold bits_ascii. rewrite !unbit_bit, IH. reflexivity.
Qed.

Lemma encode_no_sep (sep : ascii) (s : string) :
  (forall b, Ascii.eqb sep (bit b) = false) ->
  existsb (Ascii.eqb sep) (list_ascii_of_string (encode s)) = false.
Proof.
  intros H. induction s as [|[b0 b1 b2 b3 b4 b5 b6 b7] s IH]; [reflexivity|].
  cbn [encode list_ascii_of_string existsb]. rewrite !H, IH. reflexivity.
Qed.

Lemma dot_not_bit (b : bool) : Ascii.eqb "." (bit b) = false.
Proof. destruct b; reflexivity. Qed.

Lemma space_not_bit (b : bool) : Ascii.eqb " " (bit b) = false.
Proof. destruct b; reflexivity. Qed.

Lemma split_sign (uid secret : string) (expiresIn iat : N) :
  split "." (sign uid secret expiresIn iat)
  = ["jwt"; encode secret; number_toString (iat + expiresIn); encode uid].
Proof.
  unfold sign.
  rewrite split_word by reflexivity.
  rewrite split_word by (apply encode_no_sep; exact dot_not_bit).
  rewrite split_word by (apply hex_no_sep; reflexivity).
  rewrite split_no_sep by (apply encode_no_sep; exact dot_not_bit).
  reflexivity.
Qed.

Lemma reference_verify_sign (uid secret : string) (expiresIn iat clock : N) :
  (clock < iat + expiresIn)%N ->
  verify (sign uid secret expiresIn iat) secret clock = Return uid.
Proof.
  intros H. unfold verify. rewrite split_sign.
  cbn [String.eqb negb]. change (String.eqb "jwt" "jwt") with true. cbn [negb].
  rewrite !decode_encode, number_cast_toString, String.eqb_refl. cbn [negb].
  apply N.leb_gt in H. rewrite H. reflexivity.
Qed.

Lemma reference_sign_nonempty (uid secret : string) (expiresIn iat : N) :
  sign uid secret expiresIn iat <> "".
Proof. unfold sign. simpl. discriminate. Qed.

Lemma reference_sign_no_space (uid secret : string) (expiresIn iat : N) :
  existsb (Ascii.eqb " ") (list_ascii_of_string (sign uid secret expiresIn iat)) = false.
Proof.
  unfold sign.
  repeat (rewrite existsb_append; cbn [list_ascii_of_string existsb]).
  rewrite !(encode_no_sep " " _ space_not_bit).
  rewrite (hex_no_sep " " _ eq_refl). reflexivity.
Qed.

End ReferenceFacts.

#[export] Instance hex_bson : Bson := {|
  ObjectId := Reference.Oid;
  equals := Reference.oid_equals;
  equals_spec := ReferenceFacts.oid_equals_spec;
  toString := Reference.oid_toString;
  castObjectId := Reference.oid_cast;
  cast_toString := ReferenceFacts.oid_cast_toString
|}.

#[export] Instance transparent_jwt : JsonWebToken := {|
  jwt_sign := Reference.sign;
  jwt_verify := Reference.verify;
  verify_sign := ReferenceFacts.reference_verify_sign;
  sign_nonempty := ReferenceFacts.reference_sign_nonempty;
  sign_no_space := ReferenceFacts.reference_sign_no_space
|}.

(** ** The server on concrete data *)

Module Sample.

Definition ann_id : ObjectId :=
  {| Reference.oid_value := 0x64a11ce00000000000000001; Reference.oid_ok := eq_refl |}.

Definition bob_id : ObjectId :=
  {| Reference.oid_value := 0x64b0b0000000000000000001; Reference.oid_ok := eq_refl |}.

Definition algebra_id : ObjectId :=
  {| Reference.oid_value := 0x64c0de000000000000000001; Reference.oid_ok := eq_refl |}.

Definition pottery_id : ObjectId :=
  {| Reference.oid_value := 0x64c1a7000000000000000001; Reference.oid_ok := eq_refl |}.

Definition ann : User :=
  {| user_id := ann_id; name := "Ann"; email := "ann@x.com"; password := "pw1";
     enrolledCourses := []; progress := [] |}.

Definition algebra : Course :=
  {| course_id := algebra_id; title := "Algebra"; description := "Groups and rings";
     category := Some "math"; lessons := ["lesson1"; "lesson2"]; quizzes := [];
     enrolledStudents := [] |}.

Definition pottery : Course :=
  {| course_id := pottery_id; title := "Pottery"; description := "Wheel throwing";
     category := Some "craft"; lessons := ["clay"]; quizzes := [];
     enrolledStudents := [] |}.

(** Ann registered, two courses in the catalog, nobody enrolled. *)
Definition db0 : DB := {| users := [ann]; catalog := [algebra; pottery] |}.

(** Ann enrolled in algebra, nothing completed yet. *)
Definition ann_enrolled : User :=
  {| user_id := ann_id; name := "Ann"; email := "ann@x.com"; password := "pw1";
     enrolledCourses := [algebra_id];
     progress := [{| course := algebra_id; completedLessons := [] |}] |}.

Definition algebra_with_ann : Course :=
  {| course_id := algebra_id; title := "Algebra"; description := "Groups and rings";
     category := Some "math"; lessons := ["lesson1"; "lesson2"]; quizzes := [];
     enrolledStudents := [ann_id] |}.

Definition db1 : DB := {| users := [ann_enrolled]; catalog := [algebra_with_ann; pottery] |}.

Definition env0 : Env := {| JWT_SECRET := "s3cret"; now := 1000%N; newObjectId := bob_id |}.

(** The context the gate builds for a request carrying Ann's token. *)
Definition as_ann : Req :=
  {| authorization := None; req_isAuth := Some true; req_userId := Some "64a11ce00000000000000001" |}.

Example enroll_then_complete :
  snd (enroll "64c0de000000000000000001" as_ann db0) = db1 /\
  fst (completeLesson "64c0de000000000000000001" "lesson1" as_ann
         (snd (completeLesson "64c0de000000000000000001" "lesson1" as_ann db1)))
    = Return {| course := algebra_id; completedLessons := ["lesson1"] |}.
Proof. split; reflexivity. Qed.

(** The same course id spelled in upper case finds the course, but the
    membership test compares it with the lower-case rendering. *)
Example enroll_upper_case_spelling :
  findById course_id (catalog db0) (Some "64C0DE000000000000000001") = Return (Some algebra) /\
  map progress (users (snd (enroll "64C0DE000000000000000001" as_ann (snd (enroll "64C0DE000000000000000001" as_ann db0)))))
    = [[{| course := algebra_id; completedLessons := [] |};
        {| course := algebra_id; completedLessons := [] |}]].
Proof. split; reflexivity. Qed.

(** Ann registers, browses by category, logs in, enrolls twice and completes
    the same lesson twice, every request through the gate. *)
Example scenario :
  let start := {| users := []; catalog := [algebra; pottery] |} in
  let registered := snd (serve env0 None (Register "Ann" "ann@x.com" "pw1") start) in
  let header := Some ("Bearer " ++ jwt_sign "64b0b0000000000000000001" "s3cret" one_day 1000%N) in
  let enrolled := snd (serve env0 header (Enroll "64c0de000000000000000001")
                         (snd (serve env0 header (Enroll "64c0de000000000000000001") registered))) in
  let completed := snd (serve env0 header (CompleteLesson "64c0de000000000000000001" "lesson1") enrolled) in
  fst (serve env0 None (Courses (Some "math")) registered) = Return (CourseList [algebra]) /\
  fst (serve env0 None (Login "ann@x.com" "pw1") registered)
    = Return (AuthDataValue {| token := jwt_sign "64b0b0000000000000000001" "s3cret" one_day 1000%N;
                               userId := bob_id |}) /\
  fst (serve env0 None (Enroll "64c0de000000000000000001") registered) = Throw (Error "Unauthorized") /\
  fst (serve env0 header (CompleteLesson "64c0de000000000000000001" "lesson1") completed)
    = Return (ProgressValue {| course := algebra_id; completedLessons := ["lesson1"] |}) /\
  map progress (users completed)
    = [[{| course := algebra_id; completedLessons := ["lesson1"] |}]] /\
  map enrolledStudents (catalog completed) = [[bob_id]; []].
Proof. cbv zeta. repeat split. Qed.

End Sample.

Import Sample.

(** Ann enrolls in algebra twice, spelling its id in upper case. *)
Lemma enroll_twice_duplicates_witness :
  let spelled := "64C0DE000000000000000001" in
  let db1' := snd (enroll spelled as_ann db0) in
  let db2' := snd (enroll spelled as_ann db1') in
  let record := {| course := course_id algebra; completedLessons := [] |} in
  findById course_id (catalog db0) (Some spelled) = Return (Some algebra) /\
  toString (course_id algebra) = "64c0de000000000000000001" /\
  exists c1 c2 u2,
    fst (enroll spelled as_ann db0) = Return (Some c1) /\
    fst (enroll spelled as_ann db1') = Return (Some c2) /\
    db2' <> db1' /\
    findById user_id (users db2') (req_userId as_ann) = Return (Some u2) /\
    findById course_id (catalog db2') (Some spelled) = Return (Some c2) /\
    progress u2 = (progress ann ++ [record; record])%list /\
    enrolledCourses u2 = (enrolledCourses ann ++ [course_id algebra; course_id algebra])%list /\
    enrolledStudents c2 = (enrolledStudents algebra ++ [user_id ann; user_id ann])%list.
Proof.
  intros spelled db1' db2' record. split; [reflexivity|]. split; [reflexivity|].
  apply (enroll_twice_duplicates spelled as_ann db0 ann algebra);
    [reflexivity|reflexivity|reflexivity|].
  intros E. vm_compute in E. discriminate E.
Defined.

(** Ann, not enrolled, completes a lesson of algebra. *)
Lemma completeLesson_not_enrolled_TypeError_witness :
  truthy_bool (req_isAuth as_ann) = true /\
  findById user_id (users db0) (req_userId as_ann) = Return (Some ann) /\
  progress_for ann "64c0de000000000000000001" = None /\
  completeLesson "64c0de000000000000000001" "lesson1" as_ann db0
    = (Throw (TypeError js_undefined "completedLessons"), db0).
Proof.
  repeat (split; [reflexivity|]).
  apply (completeLesson_not_enrolled_TypeError "64c0de000000000000000001" "lesson1" as_ann db0 ann);
    reflexivity.
Defined.

(** Ann, enrolled, completes lesson1, again lesson1, a pottery lesson,
    lesson2, and lesson1 once more. *)
Lemma completeLesson_at_most_once_witness :
  let calls := [("64c0de000000000000000001", "lesson1"); ("64c0de000000000000000001", "lesson1"); ("64c1a7000000000000000001", "clay");
                ("64c0de000000000000000001", "lesson2"); ("64c0de000000000000000001", "lesson1")] in
  let p := {| course := algebra_id; completedLessons := [] |} in
  progress_for ann_enrolled "64c0de000000000000000001" = Some p /\
  exists u' p',
    findById user_id (users (completeLessons calls as_ann db1)) (req_userId as_ann)
      = Return (Some u') /\
    progress_for u' "64c0de000000000000000001" = Some p' /\
    course p' = course p /\
    completedLessons p'
      = (completedLessons p
           ++ first_occurrences (unseen (completedLessons p) (requested "64c0de000000000000000001" calls)))%list /\
    NoDup (completedLessons p') /\
    (forall L, count_occ string_dec (completedLessons p') L <= 1) /\
    (forall L, In L (requested "64c0de000000000000000001" calls) -> In L (completedLessons p')).
Proof.
  intros calls p. split; [reflexivity|].
  apply (completeLesson_at_most_once calls "64c0de000000000000000001" as_ann db1 ann_enrolled p);
    [reflexivity|reflexivity|reflexivity|constructor].
Defined.

(** Ann logs in; the token is presented 2000 seconds later. *)
Lemma login_token_verifies_witness :
  unique_emails (users db0) = true /\
  (exists tok,
     login env0 "ann@x.com" "pw1" (incoming None) db0
       = (Return {| token := tok; userId := user_id ann |}, db0) /\
     jwt_verify tok (JWT_SECRET env0) 3000%N = Return (toString (user_id ann)) /\
     isAuth {| JWT_SECRET := JWT_SECRET env0; now := 3000%N; newObjectId := newObjectId env0 |}
            (incoming (Some ("Bearer " ++ tok)))
       = Return (Next {| authorization := Some ("Bearer " ++ tok);
                         req_isAuth := Some true;
                         req_userId := Some (toString (user_id ann)) |}) /\
     cast (toString (user_id ann)) = Return (user_id ann)) /\
  login env0 "bob@x.com" "pw1" (incoming None) db0
    = (Throw (Error "Invalid credentials"), db0) /\
  login env0 "ann@x.com" "pw2" (incoming None) db0
    = (Throw (Error "Invalid credentials"), db0).
Proof.
  split; [reflexivity|].
  destruct (login_token_verifies env0 "ann@x.com" "pw1" (incoming None) db0 eq_refl)
    as [Hok _].
  destruct (login_token_verifies env0 "bob@x.com" "pw1" (incoming None) db0 eq_refl)
    as [_ [Hunknown _]].
  destruct (login_token_verifies env0 "ann@x.com" "pw2" (incoming None) db0 eq_refl)
    as [_ [_ Hwrong]].
  split; [|split].
  - destruct (Hok ann (or_introl eq_refl) eq_refl eq_refl) as [tok [H1 H2]].
    exists tok. split; [exact H1|]. apply (H2 3000%N). reflexivity.
  - apply Hunknown. intros u [<-|[]]. discriminate.
  - apply (Hwrong ann (or_introl eq_refl) eq_refl). discriminate.
Defined.

(** A second registration with Ann's email. *)
Lemma register_duplicate_email_witness :
  In ann (users db0) /\ email ann = "ann@x.com" /\
  register env0 "Anna" "ann@x.com" "pw2" (incoming None) db0
    = (Throw (Error "Email already registered"), db0).
Proof.
  split; [left; reflexivity|]. split; [reflexivity|].
  apply (register_duplicate_email env0 "Anna" "ann@x.com" "pw2" (incoming None) db0 ann);
    [left; reflexivity|reflexivity].
Defined.

(** Three requests at the gate: no header, a token that is not one, and the
    token a login at time 1000 returned to Ann. *)
Lemma isAuth_never_blocks_witness :
  let tok := jwt_sign "64a11ce00000000000000001" "s3cret" one_day 1000%N in
  (exists req', isAuth env0 (incoming None) = Return (Next req') /\
                truthy_bool (req_isAuth req') = false /\ req_userId req' = None) /\
  (exists req', isAuth env0 (incoming (Some "Bearer garbage")) = Return (Next req') /\
                req' = {| authorization := Some "Bearer garbage";
                          req_isAuth := Some false; req_userId := None |}) /\
  (exists req', isAuth env0 (incoming (Some ("Bearer " ++ tok))) = Return (Next req') /\
                req' = {| authorization := Some ("Bearer " ++ tok);
                          req_isAuth := Some true; req_userId := Some "64a11ce00000000000000001" |}).
Proof.
  intros tok. split; [|split].
  - destruct (isAuth_never_blocks env0 None) as [r [H1 [_ [H3 _]]]].
    exists r. split; [exact H1|]. apply H3. reflexivity.
  - destruct (isAuth_never_blocks env0 (Some "Bearer garbage")) as [r [H1 [_ [_ [H4 _]]]]].
    exists r. split; [exact H1|].
    apply (H4 "garbage" Reference.malformed); reflexivity.
  - destruct (isAuth_never_blocks env0 (Some ("Bearer " ++ tok))) as [r [H1 [_ [_ [_ H5]]]]].
    exists r. split; [exact H1|].
    apply (H5 tok "64a11ce00000000000000001"); reflexivity.
Defined.

(** Ann enrolls, completes a lesson, and Bob registers: Ann is still stored,
    with every Progress record and lesson she had. *)
Lemma progress_only_grows_witness :
  let requests := [(env0, Enroll "64c0de000000000000000001", as_ann);
                   (env0, CompleteLesson "64c0de000000000000000001" "lesson1", as_ann);
                   (env0, Register "Bob" "bob@x.com" "pw", incoming None)] in
  In ann_enrolled (users db1) /\
  exists u', In u' (users (resolve_all requests db1)) /\ user_id u' = user_id ann_enrolled /\
    length (progress ann_enrolled) <= length (progress u') /\
    forall p, In p (progress ann_enrolled) ->
      exists p', In p' (progress u') /\ course p' = course p /\
        forall L, In L (completedLessons p) -> In L (completedLessons p').
Proof.
  intros requests. split; [left; reflexivity|].
  destruct (progress_only_grows requests db1) as [_ [_ H]].
  apply (H ann_enrolled). left. reflexivity.
Defined.

(** The catalog filtered by "math". *)
Lemma courses_filter_nonempty_witness :
  exists result,
    courses (Some "math") (incoming None) db0 = (Return result, db0) /\
    result = [algebra] /\
    forall c, In c result <-> In c (catalog db0) /\ category c = Some "math".
Proof.
  destruct (courses_filter_nonempty (Some "math") (incoming None) db0)
    as [r [H1 [_ [_ H4]]]].
  exists r. split; [exact H1|].
  apply (H4 "math" eq_refl). discriminate.
Defined.

(** With the empty string as filter the result is the whole catalog: it holds
    courses whose category is not the filter. *)
Lemma courses_empty_filter_counterexample :
  fst (courses (Some "") (incoming None) db0) = Return [algebra; pottery] /\
  ~ (forall c, In c [algebra; pottery]
               <-> In c (catalog db0) /\ category c = Some "").
Proof.
  split; [reflexivity|].
  intros H. destruct (proj1 (H algebra) (or_introl eq_refl)) as [_ E].
  discriminate E.
Qed.

(** Ann enrolls in a course id that names no stored course. *)
Lemma enroll_missing_course_TypeError_witness :
  enrolled_courses_exist db0 = true /\
  truthy_bool (req_isAuth as_ann) = true /\
  findById user_id (users db0) (req_userId as_ann) = Return (Some ann) /\
  findById course_id (catalog db0) (Some "64dead000000000000000001") = Return None /\
  enroll "64dead000000000000000001" as_ann db0 = (Throw (TypeError js_null "enrolledStudents"), db0).
Proof.
  repeat (split; [reflexivity|]).
  apply (enroll_missing_course_TypeError "64dead000000000000000001" as_ann db0 ann); reflexivity.
Defined.

(** Ann completes, in algebra, a lesson algebra does not have. *)
Lemma completeLesson_any_lesson_witness :
  let p := {| course := algebra_id; completedLessons := [] |} in
  includes (lessons algebra_with_ann) "knitting" = false /\
  progress_for ann_enrolled "64c0de000000000000000001" = Some p /\
  exists p' db' u',
    completeLesson "64c0de000000000000000001" "knitting" as_ann db1 = (Return p', db') /\
    In "knitting" (completedLessons p') /\
    course p' = course p /\
    findById user_id (users db') (req_userId as_ann) = Return (Some u') /\
    progress_for u' "64c0de000000000000000001" = Some p' /\
    catalog db' = catalog db1.
Proof.
  intros p. split; [reflexivity|]. split; [reflexivity|].
  apply (completeLesson_any_lesson "64c0de000000000000000001" "knitting" as_ann db1 ann_enrolled p);
    reflexivity.
Defined.

(** ** More runs on the sample data *)

(** The Progress record [enroll] makes for algebra. *)
Definition algebra_record : Progress := {| course := algebra_id; completedLessons := [] |}.

(** Enrolling without a header. *)
Lemma unauthorized_before_anything_witness :
  gated (Enroll "64c0de000000000000000001") = true /\
  truthy_bool (req_isAuth (incoming None)) = false /\
  resolve env0 (Enroll "64c0de000000000000000001") (incoming None) db0 = (Throw (Error "Unauthorized"), db0).
Proof.
  repeat (split; [reflexivity|]).
  apply (unauthorized_before_anything env0 (Enroll "64c0de000000000000000001") (incoming None) db0);
    reflexivity.
Defined.

(** Completing a lesson with a token that is not one. *)
Lemma serve_rejects_anonymous_witness :
  presented_token (Some "Bearer garbage") = Some "garbage" /\
  jwt_verify "garbage" (JWT_SECRET env0) (now env0) = Throw Reference.malformed /\
  serve env0 (Some "Bearer garbage") (CompleteLesson "64c0de000000000000000001" "lesson1") db1
    = (Throw (Error "Unauthorized"), db1).
Proof.
  repeat (split; [reflexivity|]).
  apply (serve_rejects_anonymous env0 (Some "Bearer garbage")
           (CompleteLesson "64c0de000000000000000001" "lesson1") db1); [reflexivity|].
  right. exists "garbage", Reference.malformed. split; reflexivity.
Defined.

(** A context whose user id names nobody. *)
Lemma stored_user_required_witness :
  let ghost := {| authorization := None; req_isAuth := Some true;
                  req_userId := Some "64dead000000000000000001" |} in
  findById user_id (users db0) (req_userId ghost) = Return None /\
  myCourses ghost db0 = (Throw (TypeError js_null "enrolledCourses"), db0) /\
  myProgress "64c0de000000000000000001" ghost db0 = (Throw (TypeError js_null "progress"), db0) /\
  completeLesson "64c0de000000000000000001" "lesson1" ghost db0 = (Throw (TypeError js_null "progress"), db0) /\
  (forall crs, findById course_id (catalog db0) (Some "64c0de000000000000000001") = Return crs ->
     enroll "64c0de000000000000000001" ghost db0 = (Throw (TypeError js_null "enrolledCourses"), db0)).
Proof.
  intros ghost. split; [reflexivity|].
  apply (stored_user_required "64c0de000000000000000001" "lesson1" ghost db0); reflexivity.
Defined.

(** Ann's token sent under the scheme "Basic". *)
Lemma isAuth_ignores_scheme_witness :
  let tok := jwt_sign "64a11ce00000000000000001" "s3cret" one_day 1000%N in
  no_space "Basic" = true /\ no_space tok = true /\
  exists req1 req2,
    isAuth env0 (incoming (Some ("Basic" ++ String " " tok))) = Return (Next req1) /\
    isAuth env0 (incoming (Some ("Bearer " ++ tok))) = Return (Next req2) /\
    req_isAuth req1 = req_isAuth req2 /\
    req_userId req1 = req_userId req2 /\
    (forall uid, jwt_verify tok (JWT_SECRET env0) (now env0) = Return uid ->
       req_isAuth req1 = Some true /\ req_userId req1 = Some uid).
Proof.
  intros tok. split; [reflexivity|]. split; [reflexivity|].
  apply (isAuth_ignores_scheme env0 "Basic" tok); [reflexivity|reflexivity|].
  vm_compute. discriminate.
Defined.

(** Ann's token after two spaces. *)
Lemma isAuth_double_space_witness :
  let tok := jwt_sign "64a11ce00000000000000001" "s3cret" one_day 1000%N in
  no_space "Bearer" = true /\
  isAuth env0 (incoming (Some ("Bearer" ++ String " " (String " " tok))))
    = Return (Next (incoming (Some ("Bearer" ++ String " " (String " " tok))))).
Proof.
  intros tok. split; [reflexivity|].
  apply (isAuth_double_space env0 "Bearer" tok). reflexivity.
Defined.

(** Bob registers and logs in. *)
Lemma register_then_login_witness :
  let created := {| user_id := bob_id; name := "Bob"; email := "bob@x.com";
                    password := "pw"; enrolledCourses := []; progress := [] |} in
  let db' := {| users := [ann; created]; catalog := catalog db0 |} in
  register env0 "Bob" "bob@x.com" "pw" (incoming None) db0 = (Return created, db') /\
  login env0 "bob@x.com" "pw" (incoming None) db'
    = (Return {| token := jwt_sign "64b0b0000000000000000001" "s3cret" one_day 1000%N;
                 userId := bob_id |}, db') /\
  (forall pw2, pw2 <> "pw" ->
     login env0 "bob@x.com" pw2 (incoming None) db'
       = (Throw (Error "Invalid credentials"), db')) /\
  (forall nm2 pw2,
     register env0 nm2 "bob@x.com" pw2 (incoming None) db'
       = (Throw (Error "Email already registered"), db')).
Proof.
  intros created db'.
  apply (register_then_login env0 env0 "Bob" "bob@x.com" "pw"
           (incoming None) (incoming None) db0).
  intros u [<-|[]]. discriminate.
Defined.

(** Ann enrolls in algebra and completes lesson1. *)
Lemma enroll_then_completeLesson_witness :
  toString (course_id algebra) = "64c0de000000000000000001" /\
  map course (progress ann) = enrolledCourses ann /\
  includes_id (enrolledCourses ann) "64c0de000000000000000001" = false /\
  fst (completeLesson "64c0de000000000000000001" "lesson1" as_ann (snd (enroll "64c0de000000000000000001" as_ann db0)))
    = Return {| course := course_id algebra; completedLessons := ["lesson1"] |}.
Proof.
  repeat (split; [reflexivity|]).
  apply (enroll_then_completeLesson "64c0de000000000000000001" "lesson1" as_ann db0 ann algebra);
    reflexivity.
Defined.

(** Ann enrolls in algebra and lists her courses. *)
Lemma enroll_then_myCourses_witness :
  includes_id (enrolledCourses ann) "64c0de000000000000000001" = false /\
  let db1' := snd (enroll "64c0de000000000000000001" as_ann db0) in
  myCourses as_ann db1'
    = (Return (populate_courses (enrolledCourses ann) (catalog db1')
                 ++ [enrolled_course algebra (user_id ann)])%list, db1').
Proof.
  split; [reflexivity|].
  apply (enroll_then_myCourses "64c0de000000000000000001" as_ann db0 ann algebra); reflexivity.
Defined.

(** Ann, enrolled, lists her courses. *)
Lemma myCourses_in_enrollment_order_witness :
  enrolled_courses_exist db1 = true /\
  exists cs,
    myCourses as_ann db1 = (Return cs, db1) /\
    map course_id cs = enrolledCourses ann_enrolled /\
    forall c, In c cs -> In c (catalog db1).
Proof.
  split; [reflexivity|].
  apply (myCourses_in_enrollment_order as_ann db1 ann_enrolled); reflexivity.
Defined.

(** Ann, enrolled, reads her progress in algebra. *)
Lemma myProgress_reads_record_witness :
  progress_for ann_enrolled "64c0de000000000000000001" = Some algebra_record /\
  exists c, In c (catalog db1) /\ course_id c = course_id algebra /\
    myProgress "64c0de000000000000000001" as_ann db1
      = (Return (Some {| pp_course := Some c; pp_completedLessons := [] |}), db1).
Proof.
  split; [reflexivity|].
  exact (myProgress_reads_record "64c0de000000000000000001" as_ann db1 ann_enrolled
           eq_refl eq_refl eq_refl eq_refl).
Defined.

(** Ann completes lesson1 twice. *)
Lemma completeLesson_repeat_changes_nothing_witness :
  progress_for ann_enrolled "64c0de000000000000000001" = Some algebra_record /\
  completeLesson "64c0de000000000000000001" "lesson1" as_ann (snd (completeLesson "64c0de000000000000000001" "lesson1" as_ann db1))
    = completeLesson "64c0de000000000000000001" "lesson1" as_ann db1.
Proof.
  split; [reflexivity|].
  apply (completeLesson_repeat_changes_nothing "64c0de000000000000000001" "lesson1" as_ann db1 ann_enrolled
           algebra_record); reflexivity.
Defined.

(** What Ann's completed lesson leaves alone. *)
Lemma completeLesson_changes_one_record_witness :
  let db' := snd (completeLesson "64c0de000000000000000001" "lesson1" as_ann db1) in
  catalog db' = catalog db1 /\
  (forall v, In v (users db1) -> user_id v <> user_id ann_enrolled -> In v (users db')) /\
  exists u',
    findById user_id (users db') (req_userId as_ann) = Return (Some u') /\
    (user_id u', name u', email u', password u')
      = (user_id ann_enrolled, name ann_enrolled, email ann_enrolled, password ann_enrolled) /\
    enrolledCourses u' = enrolledCourses ann_enrolled /\
    length (progress u') = length (progress ann_enrolled) /\
    forall other, other <> "64c0de000000000000000001" ->
      progress_for u' other = progress_for ann_enrolled other.
Proof.
  apply (completeLesson_changes_one_record "64c0de000000000000000001" "lesson1" as_ann db1 ann_enrolled
           algebra_record); reflexivity.
Defined.

(** Bob registers, then Ann enrolls and completes a lesson. *)
Definition sample_requests : list (Env * Op * Req) :=
  [(env0, Register "Bob" "bob@x.com" "pw", incoming None);
   (env0, Enroll "64c0de000000000000000001", as_ann);
   (env0, CompleteLesson "64c0de000000000000000001" "lesson1", as_ann)].

Lemma progress_mirrors_enrolled_always_witness :
  progress_mirrors_enrolled db0 /\
  forall u, In u (users (resolve_all sample_requests db0)) ->
    map course (progress u) = enrolledCourses u /\
    length (progress u) = length (enrolledCourses u).
Proof.
  assert (H : progress_mirrors_enrolled db0) by (intros u [<-|[]]; reflexivity).
  split; [exact H|].
  apply (progress_mirrors_enrolled_always sample_requests db0 H).
Defined.

Lemma credentials_fixed_enrollment_grows_witness :
  In ann (users db0) /\
  exists u', In u' (users (resolve_all sample_requests db0)) /\
    credentials u' = credentials ann /\
    forall oid, In oid (enrolledCourses ann) -> In oid (enrolledCourses u').
Proof.
  split; [left; reflexivity|].
  destruct (credentials_fixed_enrollment_grows sample_requests db0) as [_ H].
  apply (H ann). left. reflexivity.
Defined.

Lemma enrollment_views_agree_witness :
  unique_ids db0 /\ views_agree db0 /\ fresh_draws sample_requests db0 /\
  unique_ids (resolve_all sample_requests db0) /\
  views_agree (resolve_all sample_requests db0).
Proof.
  assert (U : unique_ids db0).
  { split; simpl.
    - constructor; [intros []|constructor].
    - constructor; [intros [E|[]]; discriminate E|].
      constructor; [intros []|constructor]. }
  assert (V : views_agree db0)
    by (intros u c [<-|[]] [<-|[<-|[]]]; reflexivity).
  assert (F : fresh_draws sample_requests db0).
  { cbn [fresh_draws sample_requests]. split; [|split; [|split]].
    - intros _ _ _ _. split.
      + intros u [<-|[]]. discriminate.
      + intros c [<-|[<-|[]]] [].
    - intros nm em pw E. discriminate E.
    - intros nm em pw E. discriminate E.
    - exact I. }
  split; [exact U|]. split; [exact V|]. split; [exact F|].
  apply (enrollment_views_agree sample_requests db0 U V F).
Defined.

(** Ann logs in on the first database and lists her courses, 2000 seconds
    later, on the second. *)
Lemma login_token_acts_for_user_witness :
  unique_emails (users db0) = true /\
  NoDup (map user_id (users db1)) /\
  exists tok,
    login env0 "ann@x.com" "pw1" (incoming None) db0
      = (Return {| token := tok; userId := user_id ann |}, db0) /\
    let env' := {| JWT_SECRET := JWT_SECRET env0; now := 3000%N;
                   newObjectId := newObjectId env0 |} in
    let ctx := {| authorization := Some ("Bearer " ++ tok); req_isAuth := Some true;
                  req_userId := Some (toString (user_id ann)) |} in
    serve env' (Some ("Bearer " ++ tok)) MyCourses db1 = resolve env' MyCourses ctx db1 /\
    findById user_id (users db1) (req_userId ctx) = Return (Some ann_enrolled).
Proof.
  assert (Hnd : NoDup (map user_id (users db1)))
    by (simpl; constructor; [intros []|constructor]).
  split; [reflexivity|]. split; [exact Hnd|].
  apply (login_token_acts_for_user env0 3000%N "ann@x.com" "pw1" (incoming None)
           db0 ann MyCourses db1 ann_enrolled);
    [reflexivity|left; reflexivity|reflexivity|reflexivity|exact Hnd
    |left; reflexivity|reflexivity|reflexivity].
Defined.

(** Ann uses a course id that is not hexadecimal. *)
Lemma uncastable_course_id_witness :
  castObjectId "xyz" = None /\
  enroll "xyz" as_ann db0 = (Throw (CastError "xyz"), db0) /\
  completeLesson "xyz" "lesson1" as_ann db0
    = (Throw (TypeError js_undefined "completedLessons"), db0).
Proof.
  split; [reflexivity|].
  apply (uncastable_course_id "xyz" "lesson1" as_ann db0 ann); reflexivity.
Defined.

(** Ann enrolls in algebra: pottery is not touched. *)
Lemma enroll_writes_two_documents_witness :
  In pottery (catalog db0) /\
  castObjectId "64c0de000000000000000001" <> Some (course_id pottery) /\
  In pottery (catalog (snd (enroll "64c0de000000000000000001" as_ann db0))).
Proof.
  assert (Hne : castObjectId "64c0de000000000000000001" <> Some (course_id pottery))
    by (vm_compute; discriminate).
  split; [right; left; reflexivity|]. split; [exact Hne|].
  destruct (enroll_writes_two_documents "64c0de000000000000000001" as_ann db0) as [_ H].
  apply (H pottery); [right; left; reflexivity|exact Hne].
Defined.

(** Ann enrolls in algebra twice, spelling its id as it is rendered. *)
Lemma enroll_twice_canonical_idempotent_witness :
  let spelled := "64c0de000000000000000001" in
  toString (course_id algebra) = spelled /\
  membership ann algebra spelled = (0, 0, 0) /\
  exists c1 u2 c2,
    fst (enroll spelled as_ann db0) = Return (Some c1) /\
    course_id c1 = course_id algebra /\
    enroll spelled as_ann (snd (enroll spelled as_ann db0))
      = (Return (Some c2), snd (enroll spelled as_ann db0)) /\
    findById user_id (users (snd (enroll spelled as_ann db0))) (req_userId as_ann)
      = Return (Some u2) /\
    findById course_id (catalog (snd (enroll spelled as_ann db0))) (Some spelled)
      = Return (Some c2) /\
    user_id u2 = user_id ann /\
    course_id c2 = course_id algebra /\
    membership u2 c2 spelled = (1, 1, 1).
Proof.
  intros spelled. split; [reflexivity|]. split; [reflexivity|].
  apply (enroll_twice_canonical_idempotent spelled as_ann db0 ann algebra);
    [reflexivity|reflexivity|reflexivity|reflexivity|left; reflexivity].
Defined.
